(** * The Keycloak authorization gate of authztraefikgateway

    A shallow embedding of [authorization.go]: the Traefik middleware that
    reads the [Authorization] header of an inbound request, derives a
    permission from the request path, asks Keycloak for a UMA ticket and
    either calls the next handler or answers with an error.

    Go strings are byte strings, modelled by [string] (a list of 8-bit
    characters).  [map[string][]string] values ([http.Header], [url.Values])
    are [gmap string (list string)].  The calls the gate makes on the outside
    world (printing, [http.Error], [client.Do], the next handler) are recorded,
    in order, in a trace of events. *)

From Stdlib Require Import ZArith Ascii String.
From stdpp Require Import gmap strings list fin_maps sorting.

(** ** Go preliminaries *)

(** A Go result pair [(T, error)]; an [error] is represented by its text
    ([err.Error()]). *)
Inductive result (A : Type) : Type :=
| Ok (a : A)
| Err (err : string).
Arguments Ok {A} a.
Arguments Err {A} err.

Definition LF : string := String "010"%char "".

(** *** Package [strings] *)

(** [strings.Split(s, sep)] for a one-byte separator: [s] is cut at every
    occurrence of [sep]; a string without [sep] (also the empty string) gives
    one segment. *)
Fixpoint strings_Split (s : string) (sep : ascii) : list string :=
  match s with
  | EmptyString => [""]
  | String c s' =>
      if Ascii.eqb c sep then "" :: strings_Split s' sep
      else match strings_Split s' sep with
           | seg :: rest => String c seg :: rest
           | [] => [String c ""]
           end
  end.

(** The white space of [unicode.IsSpace], as UTF-8: tab, line feed, vertical
    tab, form feed, carriage return, space; U+0085 and U+00A0; U+1680,
    U+2000..U+200A, U+2028, U+2029, U+202F, U+205F and U+3000. *)
Definition asciiSpace (c : ascii) : bool :=
  let n := N_of_ascii c in
  ((9 <=? n) && (n <=? 13) || (n =? 32))%N.

Definition space3 (a b c : N) : bool :=
  ((a =? 225) && (b =? 154) && (c =? 128)
   || (a =? 226) && (b =? 128) && ((128 <=? c) && (c <=? 138) || (c =? 168) || (c =? 169) || (c =? 175))
   || (a =? 226) && (b =? 129) && (c =? 159)
   || (a =? 227) && (b =? 128) && (c =? 128))%N.

Fixpoint trimLeftSpace (s : string) : string :=
  match s with
  | EmptyString => ""
  | String c s1 =>
      if asciiSpace c then trimLeftSpace s1
      else match s1 with
           | EmptyString => s
           | String d s2 =>
               if ((N_of_ascii c =? 194) && ((N_of_ascii d =? 133) || (N_of_ascii d =? 160)))%N
               then trimLeftSpace s2
               else match s2 with
                    | EmptyString => s
                    | String e s3 =>
                        if space3 (N_of_ascii c) (N_of_ascii d) (N_of_ascii e)
                        then trimLeftSpace s3 else s
                    end
           end
  end.

Fixpoint trimRightSpace (s : string) : string :=
  match s with
  | EmptyString => ""
  | String c s' =>
      if decide (trimLeftSpace s = "") then "" else String c (trimRightSpace s')
  end.

(** [strings.TrimSpace]. *)
Definition strings_TrimSpace (s : string) : string :=
  trimRightSpace (trimLeftSpace s).

(** *** Package [net/url] *)

Record url_URL : Type := {
  Scheme : string;
  Host : string;
  Path : string;
  RawQuery : string
}.

(** [url.Values] is [map[string][]string]. *)
Abbreviation url_Values := (gmap string (list string)).

(** [Values.Set] replaces whatever the key held by the one value. *)
Definition Values_Set (v : url_Values) (key value : string) : url_Values :=
  <[key := [value]]> v.

Definition upperhex (n : N) : ascii :=
  match String.get (N.to_nat n) "0123456789ABCDEF" with
  | Some c => c
  | None => "0"%char
  end.

Definition isAlnum (c : ascii) : bool :=
  let n := N_of_ascii c in
  ((97 <=? n) && (n <=? 122) || (65 <=? n) && (n <=? 90) || (48 <=? n) && (n <=? 57))%N.

(** [shouldEscape(c, encodeQueryComponent)]: letters, digits and [-_.~] are
    kept, every other byte is escaped. *)
Definition shouldEscape (c : ascii) : bool :=
  if isAlnum c then false
  else if (Ascii.eqb c "-" || Ascii.eqb c "_" || Ascii.eqb c "." || Ascii.eqb c "~")%char
       then false else true.

(** [url.QueryEscape]. *)
Fixpoint url_QueryEscape (s : string) : string :=
  match s with
  | EmptyString => ""
  | String c s' =>
      if Ascii.eqb c " " then String "+" (url_QueryEscape s')
      else if shouldEscape c then
        String "%" (String (upperhex (N.shiftr (N_of_ascii c) 4))
                      (String (upperhex (N.land (N_of_ascii c) 15)) (url_QueryEscape s')))
      else String c (url_QueryEscape s')
  end.

Definition string_le (a b : string) : Prop := String.leb a b = true.

#[global] Instance string_le_dec a b : Decision (string_le a b).
Proof. unfold string_le. apply _. Defined.

(** [strings.Join]. *)
Fixpoint strings_Join (elems : list string) (sep : string) : string :=
  match elems with
  | [] => ""
  | [e] => e
  | e :: rest => e +:+ sep +:+ strings_Join rest sep
  end.

(** [Values.Encode]: the keys in byte order, every value of a key as
    [key=value] with both sides query-escaped, joined by [&]. *)
Definition Values_Encode (v : url_Values) : string :=
  let keys := merge_sort string_le (map fst (map_to_list v)) in
  strings_Join
    (k ← keys;
     vs ← option_list (v !! k);
     v' ← vs;
     [url_QueryEscape k +:+ "=" +:+ url_QueryEscape v'])
    "&".

(** *** Package [net/http] *)

(** [http.Header] is [map[string][]string] under canonical keys; the two keys
    the gate uses, [Authorization] and [Content-Type], are canonical as
    written. *)
Abbreviation http_Header := (gmap string (list string)).

(** [Header.Get]: the first value under the key, [""] when there is none. *)
Definition Header_Get (h : http_Header) (key : string) : string :=
  match h !! key with
  | Some (v :: _) => v
  | _ => ""
  end.

(** [Header.Set]. *)
Definition Header_Set (h : http_Header) (key value : string) : http_Header :=
  <[key := [value]]> h.

Record http_Request : Type := {
  Method : string;
  URL : url_URL;
  Header : http_Header;
  Body : string
}.

(** The part of [http.Response] the gate reads; [RespBody] is what
    [io.ReadAll(kcResp.Body)] gives. *)
Record http_Response : Type := {
  Status : string;
  StatusCode : Z;
  RespBody : string
}.

(** The [http.Client] the gate builds has one setting of its own. *)
Record http_Client : Type := {
  InsecureSkipVerify : bool
}.

Definition StatusOK : Z := 200.
Definition StatusBadRequest : Z := 400.
Definition StatusUnauthorized : Z := 401.
Definition StatusInternalServerError : Z := 500.

(** What lies outside the process: how [http.NewRequest] resolves a URL text
    (it fails on a malformed one), and what a round trip to the server gives
    ([client.Do] fails when the request cannot be transmitted). *)
Record Env : Type := {
  resolve : string → result url_URL;
  roundTrip : http_Client → http_Request → result http_Response
}.

(** [http.NewRequest] with a method that is a valid token, as ["POST"] is. *)
Definition http_NewRequest (env : Env) (method url body : string) : result http_Request :=
  match resolve env url with
  | Err err => Err err
  | Ok u => Ok {| Method := method; URL := u; Header := ∅; Body := body |}
  end.

(** ** The plugin *)

(** [Config] holds the plugin configuration. *)
Record Config : Type := {
  KeycloakURL : string;
  KeycloakClientId : string
}.

(** [CreateConfig] creates an empty config. *)
Definition CreateConfig : Config :=
  {| KeycloakURL := ""; KeycloakClientId := "" |}.

Section Gate.
(** [http.ResponseWriter] and [http.Handler] are interfaces whose values the
    gate only passes on. *)
Context {ResponseWriter Handler : Type}.

(** [AuthMiddleware] holds the plugin state. *)
Record AuthMiddleware : Type := {
  next : Handler;
  keycloakClientId : string;
  keycloakUrl : string;
  name : string
}.

(** An operand of a print call. *)
Inductive Value : Type :=
| VStr (s : string)
| VInt (n : Z)
| VConfig (c : option Config).

(** The calls that reach the outside world.  [http_Error w error code] is the
    call [http.Error(w, error, code)], by which net/http replies with the
    status [code] and the text [error] as a plain-text line. *)
Inductive Event : Type :=
| Println (args : list Value)
| Printf (format : string) (args : list Value)
| http_Error (w : ResponseWriter) (error : string) (code : Z)
| client_Do (client : http_Client) (r : http_Request)
| Body_Close (resp : http_Response)
| next_ServeHTTP (h : Handler) (w : ResponseWriter) (r : http_Request).

(** *** Statements with early return

    A block of statements in a function returning [R] gives the events it
    raised and either goes on with a value, or has returned, or has
    panicked. *)
Inductive Flow (R A : Type) : Type :=
| Continue (a : A)
| Returned (r : R)
| Panicked.
Arguments Continue {R A} a.
Arguments Returned {R A} r.
Arguments Panicked {R A}.

Definition Go (R A : Type) : Type := list Event * Flow R A.

Definition go_ret {R A} (a : A) : Go R A := ([], Continue a).

Definition go_bind {R A B} (m : Go R A) (f : A → Go R B) : Go R B :=
  match m with
  | (t, Continue a) => let '(t', o) := f a in (t ++ t', o)
  | (t, Returned r) => (t, Returned r)
  | (t, Panicked) => (t, Panicked)
  end.

Definition emit {R} (e : Event) : Go R unit := ([e], Continue tt).
Definition go_return {R A} (r : R) : Go R A := ([], Returned r).
Definition go_panic {R A} : Go R A := ([], Panicked).

(** Indexing a slice panics out of range. *)
Definition index {R} (l : list string) (i : nat) : Go R string :=
  match l !! i with
  | Some x => go_ret x
  | None => go_panic
  end.

(** [client.Do]: the call is recorded, the world answers. *)
Definition Client_Do {R} (env : Env) (client : http_Client) (r : http_Request)
  : Go R (result http_Response) :=
  ([client_Do client r], Continue (roundTrip env client r)).

Definition trace {R A} (m : Go R A) : list Event := fst m.
End Gate.

Arguments AuthMiddleware : clear implicits.
Arguments Event : clear implicits.
Arguments Go : clear implicits.
Arguments Continue {R A} a.
Arguments Returned {R A} r.
Arguments Panicked {R A}.

#[global] Instance go_mret {W H R} : MRet (Go W H R) := @go_ret W H R.
#[global] Instance go_mbind {W H R} : MBind (Go W H R) :=
  λ A B f m, go_bind m f.

Section Middleware.
(** [Ctx] stands for [context.Context], which [New] receives and ignores. *)
Context {ResponseWriter Handler Ctx : Type}.

Local Abbreviation AuthMiddleware := (AuthMiddleware Handler).
Local Abbreviation Go := (Go ResponseWriter Handler).

(** [ServeHTTP] handles the incoming request and checks permission via
    Keycloak. *)
Definition ServeHTTP (env : Env) (am : AuthMiddleware)
    (w : ResponseWriter) (req : http_Request) : Go unit unit :=
  emit (Println [VStr "🔎 [AUTH] ServeHTTP Called"]);;

  let authorizationHeader := Header_Get (Header req) "Authorization" in
  (if decide (authorizationHeader = "") then
     emit (Println [VStr "❌ [AUTH] Authorization header is missing"]);;
     emit (http_Error w "Missing Authorization header" StatusUnauthorized);;
     go_return tt
   else mret tt);;
  emit (Println [VStr "🔎 [AUTH] Authorization Header:"; VStr authorizationHeader]);;

  let pathParts := strings_Split (Path (URL req)) "/" in
  (if decide (length pathParts < 6)%nat then
     emit (Println [VStr "❌ [AUTH] Path too short. Must be at least: /.../<resource>/<scope>/..."]);;
     emit (http_Error w "Invalid path format. Expected format: /prefix/.../<resource>/<scope>"
             StatusBadRequest);;
     go_return tt
   else mret tt);;

  resource ← index pathParts 4;
  scope ← index pathParts 5;
  let permission := "/" +:+ resource +:+ "#" +:+ scope in
  emit (Println [VStr "🔎 [AUTH] Derived permission:"; VStr permission]);;

  let formData : url_Values := ∅ in
  let formData := Values_Set formData "permission" permission in
  let formData := Values_Set formData "grant_type" "urn:ietf:params:oauth:grant-type:uma-ticket" in
  let formData := Values_Set formData "audience" (keycloakClientId am) in

  (if decide (keycloakUrl am = "") then
     emit (Println [VStr "❌ [CONFIG] Keycloak URL is empty in middleware. Cannot proceed."]);;
     emit (http_Error w "Misconfigured Keycloak URL" StatusInternalServerError);;
     go_return tt
   else mret tt);;

  match http_NewRequest env "POST" (keycloakUrl am) (Values_Encode formData) with
  | Err err =>
      emit (Println [VStr "❌ [HTTP] Error creating Keycloak request:"; VStr err]);;
      emit (http_Error w err StatusUnauthorized);;
      go_return tt
  | Ok kcReq =>
      let kcReq := {| Method := Method kcReq; URL := URL kcReq;
                      Header := Header_Set (Header kcReq) "Authorization" authorizationHeader;
                      Body := Body kcReq |} in
      let kcReq := {| Method := Method kcReq; URL := URL kcReq;
                      Header := Header_Set (Header kcReq) "Content-Type"
                                  "application/x-www-form-urlencoded";
                      Body := Body kcReq |} in

      emit (Println [VStr "🔄 [REQUEST] Sending request to Keycloak:"; VStr (keycloakUrl am)]);;

      let client := {| InsecureSkipVerify := true |} in

      r ← Client_Do env client kcReq;
      match r with
      | Err err =>
          emit (Println [VStr "❌ [HTTP] Error performing Keycloak request:"; VStr err]);;
          emit (http_Error w err StatusUnauthorized);;
          go_return tt
      | Ok kcResp =>
          let bodyString := RespBody kcResp in

          emit (Println [VStr "🔎 [HTTP] Keycloak response status:"; VStr (Status kcResp)]);;
          emit (Println [VStr "📦 [HTTP] Keycloak response body:"; VStr bodyString]);;

          (if decide (StatusCode kcResp = StatusOK) then
             emit (Println [VStr "✅ [AUTHZ] Access granted by Keycloak"]);;
             emit (next_ServeHTTP (next am) w req)
           else
             emit (Printf ("❌ [AUTHZ] Access denied by Keycloak. Status code: %d" +:+ LF)
                     [VInt (StatusCode kcResp)]);;
             emit (http_Error w "Unauthorized" StatusUnauthorized));;
          emit (Body_Close kcResp)
      end
  end.

(** [New] is called by Traefik to create the middleware instance. *)
Definition New (ctx : Ctx) (next : Handler) (config : option Config) (name : string)
  : Go (result AuthMiddleware) (result AuthMiddleware) :=
  emit (Println [VStr "🔧 [INIT] New Middleware Initialization"]);;
  emit (Printf ("🔧 [INIT] Config pointer: %p" +:+ LF) [VConfig config]);;
  emit (Printf ("🔧 [CONFIG] Raw config: %+v" +:+ LF) [VConfig config]);;

  match config with
  | None =>
      emit (Println [VStr "❌ [CONFIG] Received nil config! Middleware cannot proceed."]);;
      go_return (Err "nil config provided")
  | Some config =>
      (if decide (strings_TrimSpace (KeycloakURL config) = "") then
         emit (Println [VStr "⚠️  [CONFIG] KeycloakURL is empty! Make sure you define it in the dynamic middleware config."])
       else mret tt);;
      (if decide (strings_TrimSpace (KeycloakClientId config) = "") then
         emit (Println [VStr "⚠️  [CONFIG] KeycloakClientId is empty! Make sure you define it in the dynamic middleware config."])
       else mret tt);;

      let mw := {| next := next;
                   name := name;
                   keycloakUrl := KeycloakURL config;
                   keycloakClientId := KeycloakClientId config |} in

      emit (Printf ("🔧 [INIT] Middleware initialized with keycloakUrl: [%s], keycloakClientId: [%s]" +:+ LF)
              [VStr (keycloakUrl mw); VStr (keycloakClientId mw)]);;

      go_return (Ok mw)
  end.
End Middleware.

(** ** What a run shows to the outside *)

Section Observations.
Context {ResponseWriter Handler : Type}.

Local Abbreviation Event := (Event ResponseWriter Handler).

(** The error responses written: writer, body text and status code of every
    [http.Error] call. *)
Definition responses (t : list Event) : list (ResponseWriter * string * Z) :=
  omap (λ e, match e with http_Error w error code => Some (w, error, code) | _ => None end) t.

(** The calls of the next handler: handler, writer and request. *)
Definition forwarded (t : list Event) : list (Handler * ResponseWriter * http_Request) :=
  omap (λ e, match e with next_ServeHTTP h w r => Some (h, w, r) | _ => None end) t.

(** The policy queries handed to [client.Do]. *)
Definition queries (t : list Event) : list (http_Client * http_Request) :=
  omap (λ e, match e with client_Do c r => Some (c, r) | _ => None end) t.

(** The permission the gate reports once it has derived it. *)
Definition derived (t : list Event) : list string :=
  omap (λ e, match e with
             | Println [VStr label; VStr permission] =>
                 if decide (label = "🔎 [AUTH] Derived permission:") then Some permission else None
             | _ => None
             end) t.
End Observations.

(** ** The outbound contract, in the words of the specification

    The policy query is a POST to the authorization server whose form has the
    fields [permission], [grant_type] and [audience], and which carries the
    caller's [Authorization] header and the form content type.  These two
    definitions follow the specification; the theorems compare them with what
    [ServeHTTP] hands to [client.Do]. *)
Definition contract_fields (permission audience : string) : url_Values :=
  {[ "permission" := [permission];
     "grant_type" := ["urn:ietf:params:oauth:grant-type:uma-ticket"];
     "audience" := [audience] ]}.

Definition contract_query (u : url_URL) (authorization permission audience : string)
  : http_Request :=
  {| Method := "POST";
     URL := u;
     Header := {[ "Authorization" := [authorization];
                  "Content-Type" := ["application/x-www-form-urlencoded"] ]};
     Body := Values_Encode (contract_fields permission audience) |}.

(** A configuration is degraded when the server URL or the client identifier
    is empty or only white space: the two conditions [New] warns about. *)
Definition degraded (config : Config) : Prop :=
  strings_TrimSpace (KeycloakURL config) = "" ∨
  strings_TrimSpace (KeycloakClientId config) = "".

#[global] Instance degraded_dec config : Decision (degraded config).
Proof. unfold degraded. apply _. Defined.

(** ** The paths through [ServeHTTP] *)

Definition the_client : http_Client := {| InsecureSkipVerify := true |}.

Section Paths.
Context {ResponseWriter Handler : Type}.
Implicit Types (env : Env) (am : AuthMiddleware Handler) (w : ResponseWriter)
  (req : http_Request).

(** The seven ways a run of [ServeHTTP] can go, each with what it shows. *)
Inductive gate_path env am w req : Prop :=
| missing_credential :
    Header_Get (Header req) "Authorization" = "" →
    responses (trace (ServeHTTP env am w req))
      = [(w, "Missing Authorization header", StatusUnauthorized)] →
    forwarded (trace (ServeHTTP env am w req)) = [] →
    queries (trace (ServeHTTP env am w req)) = [] →
    derived (trace (ServeHTTP env am w req)) = [] →
    gate_path env am w req
| invalid_path_format :
    Header_Get (Header req) "Authorization" ≠ "" →
    length (strings_Split (Path (URL req)) "/") < 6 →
    responses (trace (ServeHTTP env am w req))
      = [(w, "Invalid path format. Expected format: /prefix/.../<resource>/<scope>",
          StatusBadRequest)] →
    forwarded (trace (ServeHTTP env am w req)) = [] →
    queries (trace (ServeHTTP env am w req)) = [] →
    derived (trace (ServeHTTP env am w req)) = [] →
    gate_path env am w req
| misconfigured resource scope :
    Header_Get (Header req) "Authorization" ≠ "" →
    strings_Split (Path (URL req)) "/" !! 4 = Some resource →
    strings_Split (Path (URL req)) "/" !! 5 = Some scope →
    keycloakUrl am = "" →
    responses (trace (ServeHTTP env am w req))
      = [(w, "Misconfigured Keycloak URL", StatusInternalServerError)] →
    forwarded (trace (ServeHTTP env am w req)) = [] →
    queries (trace (ServeHTTP env am w req)) = [] →
    derived (trace (ServeHTTP env am w req)) = ["/" +:+ resource +:+ "#" +:+ scope] →
    gate_path env am w req
| query_not_built resource scope err :
    Header_Get (Header req) "Authorization" ≠ "" →
    strings_Split (Path (URL req)) "/" !! 4 = Some resource →
    strings_Split (Path (URL req)) "/" !! 5 = Some scope →
    keycloakUrl am ≠ "" →
    resolve env (keycloakUrl am) = Err err →
    responses (trace (ServeHTTP env am w req)) = [(w, err, StatusUnauthorized)] →
    forwarded (trace (ServeHTTP env am w req)) = [] →
    queries (trace (ServeHTTP env am w req)) = [] →
    derived (trace (ServeHTTP env am w req)) = ["/" +:+ resource +:+ "#" +:+ scope] →
    gate_path env am w req
| query_not_sent resource scope u err :
    Header_Get (Header req) "Authorization" ≠ "" →
    strings_Split (Path (URL req)) "/" !! 4 = Some resource →
    strings_Split (Path (URL req)) "/" !! 5 = Some scope →
    keycloakUrl am ≠ "" →
    resolve env (keycloakUrl am) = Ok u →
    let kcReq := contract_query u (Header_Get (Header req) "Authorization")
                   ("/" +:+ resource +:+ "#" +:+ scope) (keycloakClientId am) in
    roundTrip env the_client kcReq = Err err →
    responses (trace (ServeHTTP env am w req)) = [(w, err, StatusUnauthorized)] →
    forwarded (trace (ServeHTTP env am w req)) = [] →
    queries (trace (ServeHTTP env am w req)) = [(the_client, kcReq)] →
    derived (trace (ServeHTTP env am w req)) = ["/" +:+ resource +:+ "#" +:+ scope] →
    gate_path env am w req
| access_granted resource scope u kcResp :
    Header_Get (Header req) "Authorization" ≠ "" →
    strings_Split (Path (URL req)) "/" !! 4 = Some resource →
    strings_Split (Path (URL req)) "/" !! 5 = Some scope →
    keycloakUrl am ≠ "" →
    resolve env (keycloakUrl am) = Ok u →
    let kcReq := contract_query u (Header_Get (Header req) "Authorization")
                   ("/" +:+ resource +:+ "#" +:+ scope) (keycloakClientId am) in
    roundTrip env the_client kcReq = Ok kcResp →
    StatusCode kcResp = StatusOK →
    responses (trace (ServeHTTP env am w req)) = [] →
    forwarded (trace (ServeHTTP env am w req)) = [(next am, w, req)] →
    queries (trace (ServeHTTP env am w req)) = [(the_client, kcReq)] →
    derived (trace (ServeHTTP env am w req)) = ["/" +:+ resource +:+ "#" +:+ scope] →
    gate_path env am w req
| access_denied resource scope u kcResp :
    Header_Get (Header req) "Authorization" ≠ "" →
    strings_Split (Path (URL req)) "/" !! 4 = Some resource →
    strings_Split (Path (URL req)) "/" !! 5 = Some scope →
    keycloakUrl am ≠ "" →
    resolve env (keycloakUrl am) = Ok u →
    let kcReq := contract_query u (Header_Get (Header req) "Authorization")
                   ("/" +:+ resource +:+ "#" +:+ scope) (keycloakClientId am) in
    roundTrip env the_client kcReq = Ok kcResp →
    StatusCode kcResp ≠ StatusOK →
    responses (trace (ServeHTTP env am w req)) = [(w, "Unauthorized", StatusUnauthorized)] →
    forwarded (trace (ServeHTTP env am w req)) = [] →
    queries (trace (ServeHTTP env am w req)) = [(the_client, kcReq)] →
    derived (trace (ServeHTTP env am w req)) = ["/" +:+ resource +:+ "#" +:+ scope] →
    gate_path env am w req.

End Paths.

(** ** Sample inputs *)

Definition sample_url (path : string) : url_URL :=
  {| Scheme := ""; Host := ""; Path := path; RawQuery := "" |}.

(** A GET request for [path] with the given [Authorization] values. *)
Definition sample_request (path : string) (authorization : list string) : http_Request :=
  {| Method := "GET"; URL := sample_url path;
     Header := {[ "Authorization" := authorization ]}; Body := "payload" |}.

Definition keycloak_endpoint : url_URL :=
  {| Scheme := "https"; Host := "keycloak.local";
     Path := "/realms/demo/protocol/openid-connect/token"; RawQuery := "" |}.

Definition answer (code : Z) : http_Response :=
  {| Status := "status"; StatusCode := code; RespBody := "{}" |}.

(** A world in which every URL text resolves to the Keycloak endpoint and the
    server answers every query with the given status code. *)
Definition answering (code : Z) : Env :=
  {| resolve := λ _, Ok keycloak_endpoint;
     roundTrip := λ _ _, Ok (answer code) |}.

(** A world in which the URL text is rejected by [http.NewRequest]. *)
Definition malformed : Env :=
  {| resolve := λ _, Err "parse error";
     roundTrip := λ _ _, Err "unreachable" |}.

(** A world in which no connection can be made. *)
Definition refusing : Env :=
  {| resolve := λ _, Ok keycloak_endpoint;
     roundTrip := λ _ _, Err "connection refused" |}.

Definition sample_gate (url client : string) : AuthMiddleware unit :=
  {| next := tt; keycloakClientId := client; keycloakUrl := url; name := "authz" |}.

Definition anonymous_request (path : string) : http_Request :=
  {| Method := "GET"; URL := sample_url path; Header := ∅; Body := "payload" |}.

Definition demo_gate : AuthMiddleware unit :=
  sample_gate "https://keycloak.local/realms/demo/protocol/openid-connect/token" "gateway".

Definition demo_request : http_Request :=
  sample_request "/a/b/c/orders/read/42" ["Bearer token"].

(** The query the contract asks for at [demo_request] and [demo_gate]. *)
Definition demo_query : http_Request :=
  contract_query keycloak_endpoint "Bearer token" "/orders#read" "gateway".

(** ** Further observations and library functions *)

(** [strings.Count(s, sep)] for a one-byte separator: [strings.Split] sizes
    its result as this count plus one. *)
Fixpoint strings_Count (s : string) (sep : ascii) : nat :=
  match s with
  | EmptyString => 0
  | String c s' => (if Ascii.eqb c sep then 1 else 0) + strings_Count s' sep
  end.

(** The bytes [url.QueryEscape] can put out: the unreserved ones, [+] for a
    space and [%] with its two hexadecimal digits. *)
Definition escapedByte (c : ascii) : bool :=
  isAlnum c
  || (Ascii.eqb c "-" || Ascii.eqb c "_" || Ascii.eqb c "." || Ascii.eqb c "~"
      || Ascii.eqb c "+" || Ascii.eqb c "%")%char.

Fixpoint allBytes (p : ascii → bool) (s : string) : bool :=
  match s with
  | EmptyString => true
  | String c s' => p c && allBytes p s'
  end.

(** The value of a hexadecimal digit ([unhex] of net/url). *)
Definition unhex (c : ascii) : option N :=
  let n := N_of_ascii c in
  if ((48 <=? n) && (n <=? 57))%N then Some (n - 48)%N
  else if ((97 <=? n) && (n <=? 102))%N then Some (n - 97 + 10)%N
  else if ((65 <=? n) && (n <=? 70))%N then Some (n - 65 + 10)%N
  else None.

(** [url.QueryUnescape], the inverse the server applies to a form value:
    [+] is a space, [%XX] is the byte with that code, a [%] without two
    hexadecimal digits is an error ([None]). *)
Fixpoint url_QueryUnescape (s : string) : option string :=
  match s with
  | EmptyString => Some ""
  | String c s1 =>
      if Ascii.eqb c "%" then
        match s1 with
        | String a (String b s3) =>
            match unhex a, unhex b with
            | Some x, Some y =>
                String (ascii_of_N (N.lor (N.shiftl x 4) y)) <$> url_QueryUnescape s3
            | _, _ => None
            end
        | _ => None
        end
      else if Ascii.eqb c "+" then String " " <$> url_QueryUnescape s1
      else String c <$> url_QueryUnescape s1
  end.

Section Effects.
Context {ResponseWriter Handler : Type}.

(** The events of a run other than the prints, in order. *)
Definition effects (t : list (Event ResponseWriter Handler))
  : list (Event ResponseWriter Handler) :=
  omap (λ e, match e with
             | Println _ | Printf _ _ => None
             | _ => Some e
             end) t.

(** The operands of the prints of a run, in order. *)
Definition printed (t : list (Event ResponseWriter Handler)) : list Value :=
  t ≫= λ e, match e with
            | Println args | Printf _ args => args
            | _ => []
            end.
End Effects.

(** A request that differs from [demo_request] in everything but the first
    Authorization value and the path. *)
Definition other_request : http_Request :=
  {| Method := "DELETE";
     URL := {| Scheme := "https"; Host := "edge"; Path := "/a/b/c/orders/read/42";
               RawQuery := "verbose=1" |};
     Header := {[ "Authorization" := ["Bearer token"; "Bearer second"];
                  "X-Trace" := ["7"] ]};
     Body := "other payload" |}.

(** A gate and a request whose client identifier and segments hold the
    bytes that separate form fields. *)
Definition tricky_gate : AuthMiddleware unit :=
  sample_gate "https://keycloak.local/realms/demo/protocol/openid-connect/token" "a&b=c".

Definition tricky_request : http_Request :=
  sample_request "/a/b/c/or&ders/re=ad" ["Bearer token"].

Definition tricky_query : http_Request :=
  contract_query keycloak_endpoint "Bearer token" "/or&ders#re=ad" "a&b=c".

(** A configuration whose server URL is two spaces. *)
Definition blank_config : Config :=
  {| KeycloakURL := "  "; KeycloakClientId := "gateway" |}.

(** ** Properties of the gate *)

Lemma six_segments (l : list string) :
  ¬ length l < 6 → ∃ resource scope, l !! 4 = Some resource ∧ l !! 5 = Some scope.
Proof.
  intros Hlen.
  destruct (lookup_lt_is_Some_2 l 4) as [resource Hr]; [lia|].
  destruct (lookup_lt_is_Some_2 l 5) as [scope Hs]; [lia|].
  eauto.
Qed.

Lemma segment_length (l : list string) i x : l !! i = Some x → i < length l.
Proof. apply lookup_lt_Some. Qed.

(** The headers and form of the query the code builds are those of the
    contract. *)
Lemma built_query_eq u authorization permission audience :
  {| Method := "POST"; URL := u;
     Header := Header_Set (Header_Set ∅ "Authorization" authorization)
                 "Content-Type" "application/x-www-form-urlencoded";
     Body := Values_Encode
               (Values_Set
                  (Values_Set (Values_Set ∅ "permission" permission) "grant_type"
                     "urn:ietf:params:oauth:grant-type:uma-ticket")
                  "audience" audience) |}
  = contract_query u authorization permission audience.
Proof.
  unfold contract_query, contract_fields, Header_Set, Values_Set.
  reflexivity.
Qed.

(** Runs [ServeHTTP] along the path the hypotheses in the context select. *)
Ltac gate_decide :=
  repeat match goal with
    | H : ?P |- context [decide ?P] => rewrite (decide_True (P := P)) by exact H
    | H : ¬ ?P |- context [decide ?P] => rewrite (decide_False (P := P)) by exact H
    | H : ?l !! ?i = Some _ |- context [?l !! ?i] => rewrite H
    | H : resolve ?e ?u = _ |- context [resolve ?e ?u] => rewrite H
    end.

Ltac gate_run :=
  unfold ServeHTTP, index, http_NewRequest; gate_decide;
  cbn -[Values_Encode Values_Set Header_Set Header_Get String.append strings_Split];
  try (rewrite built_query_eq; fold the_client;
       match goal with H : roundTrip _ _ _ = _ |- _ => rewrite H end;
       gate_decide);
  reflexivity.

(** Closes the paths that the hypotheses exclude. *)
Ltac wrong_path :=
  unfold StatusOK, StatusBadRequest, StatusUnauthorized, StatusInternalServerError in *;
  repeat match goal with x := _ |- _ => subst x end;
  simplify_eq/=;
  repeat match goal with
    | H : _ ∈ [_] |- _ => apply list_elem_of_singleton in H
    | H : _ ∈ [] |- _ => by apply not_elem_of_nil in H
    | H1 : roundTrip ?e ?c ?q = _, H2 : roundTrip ?e ?c ?q = _ |- _ => rewrite H1 in H2
    | H1 : resolve ?e ?u = _, H2 : resolve ?e ?u = _ |- _ => rewrite H1 in H2
    | _ => progress simplify_eq/=
    end;
  repeat match goal with
    | H : _ !! _ = Some _ |- _ => apply segment_length in H
    end;
  try done; try lia; try congruence.

Section Properties.
Context {ResponseWriter Handler Ctx : Type}.
Implicit Types (env : Env) (am : AuthMiddleware Handler) (w : ResponseWriter)
  (req : http_Request).

(** Every run follows one of the seven paths. *)
Lemma ServeHTTP_path env am w req : gate_path env am w req.
Proof.
  destruct (decide (Header_Get (Header req) "Authorization" = "")) as [Hh|Hh].
  { apply missing_credential; [done|..]; gate_run. }
  destruct (decide (length (strings_Split (Path (URL req)) "/") < 6)) as [Hl|Hl].
  { apply invalid_path_format; [done..| | | |]; gate_run. }
  destruct (six_segments _ Hl) as (resource & scope & Hr & Hs).
  destruct (decide (keycloakUrl am = "")) as [Hu|Hu].
  { eapply misconfigured; [done..| | | |]; gate_run. }
  destruct (resolve env (keycloakUrl am)) as [u|err] eqn:Hres.
  2:{ eapply query_not_built; [done..| | | |]; gate_run. }
  destruct (roundTrip env the_client
              (contract_query u (Header_Get (Header req) "Authorization")
                 ("/" +:+ resource +:+ "#" +:+ scope) (keycloakClientId am)))
    as [kcResp|err] eqn:Hrt.
  2:{ eapply query_not_sent; [done..| | | |]; gate_run. }
  destruct (decide (StatusCode kcResp = StatusOK)) as [Hc|Hc].
  - eapply access_granted; [done..| | | |]; gate_run.
  - eapply access_denied; [done..| | | |]; gate_run.
Qed.

Lemma Header_Get_absent (h : http_Header) key : h !! key = None → Header_Get h key = "".
Proof. intros H. unfold Header_Get. by rewrite H. Qed.


(** C5: a request whose Authorization header is absent or empty is answered
    401 with the text "Missing Authorization header"; the next handler is not
    called and no policy query is sent. *)
Theorem missing_header_unauthorized env am w req :
  Header req !! "Authorization" = None ∨ Header_Get (Header req) "Authorization" = "" →
  responses (trace (ServeHTTP env am w req)) = [(w, "Missing Authorization header", 401%Z)] ∧
  forwarded (trace (ServeHTTP env am w req)) = [] ∧
  queries (trace (ServeHTTP env am w req)) = [].
Proof.
  intros Habsent.
  assert (Header_Get (Header req) "Authorization" = "") as Hempty
    by (destruct Habsent; auto using Header_Get_absent).
  destruct (ServeHTTP_path env am w req); by wrong_path.
Qed.

(** C6: a request with a credential whose path has fewer than six segments is
    answered 400 Bad Request; the next handler is not called and no policy
    query is sent. *)
Theorem short_path_bad_request env am w req :
  Header_Get (Header req) "Authorization" ≠ "" →
  length (strings_Split (Path (URL req)) "/") < 6 →
  responses (trace (ServeHTTP env am w req))
    = [(w, "Invalid path format. Expected format: /prefix/.../<resource>/<scope>", 400%Z)] ∧
  forwarded (trace (ServeHTTP env am w req)) = [] ∧
  queries (trace (ServeHTTP env am w req)) = [].
Proof.
  intros Hh Hl. destruct (ServeHTTP_path env am w req); by wrong_path.
Qed.

(** C7: with an empty configured server URL, a request with a credential and
    a path of at least six segments is answered 500 with the text
    "Misconfigured Keycloak URL"; the next handler is not called and no policy
    query is sent. *)
Theorem empty_url_internal_error env am w req :
  keycloakUrl am = "" →
  Header_Get (Header req) "Authorization" ≠ "" →
  6 ≤ length (strings_Split (Path (URL req)) "/") →
  responses (trace (ServeHTTP env am w req)) = [(w, "Misconfigured Keycloak URL", 500%Z)] ∧
  forwarded (trace (ServeHTTP env am w req)) = [] ∧
  queries (trace (ServeHTTP env am w req)) = [].
Proof.
  intros Hu Hh Hl. destruct (ServeHTTP_path env am w req); by wrong_path.
Qed.

(** X8: a policy query is sent only for a request that passed the
    credential, path and configuration checks and whose server URL
    resolved. *)
Lemma query_sent_checks_passed env am w req client kcReq :
  (client, kcReq) ∈ queries (trace (ServeHTTP env am w req)) →
  Header_Get (Header req) "Authorization" ≠ "" ∧
  6 ≤ length (strings_Split (Path (URL req)) "/") ∧
  keycloakUrl am ≠ "" ∧
  ∃ u, resolve env (keycloakUrl am) = Ok u.
Proof.
  intros Hq.
  destruct (ServeHTTP_path env am w req);
    try match goal with H : queries _ = _ |- _ => rewrite H in Hq end;
    try (by wrong_path);
    (repeat split; [done| |done|by eauto]);
    repeat match goal with H : _ !! _ = Some _ |- _ => apply segment_length in H end; lia.
Qed.

(** C1: when the server answers the policy query of a request (one that
    passed the credential, path and configuration checks) with status 200,
    the next handler is called exactly once, with the writer and the request
    the gate was given, and the gate writes no error response. *)
Theorem granted_forwards_once env am w req client kcReq kcResp :
  (client, kcReq) ∈ queries (trace (ServeHTTP env am w req)) →
  roundTrip env client kcReq = Ok kcResp →
  StatusCode kcResp = 200%Z →
  forwarded (trace (ServeHTTP env am w req)) = [(next am, w, req)] ∧
  responses (trace (ServeHTTP env am w req)) = [].
Proof.
  intros Hq Hrt Hc.
  destruct (ServeHTTP_path env am w req);
    try match goal with H : queries _ = _ |- _ => rewrite H in Hq end;
    by wrong_path.
Qed.

(** C2: once the server has answered the policy query, the outcome depends on
    the status code of the answer only: any status other than 200 gives 401
    with the text "Unauthorized" and no call of the next handler, and two
    answers with the same status code (whatever their bodies and status
    lines) give the same responses and the same calls of the next handler. *)
Theorem decision_by_status_code env am w req client kcReq kcResp :
  (client, kcReq) ∈ queries (trace (ServeHTTP env am w req)) →
  roundTrip env client kcReq = Ok kcResp →
  (StatusCode kcResp ≠ 200%Z →
   responses (trace (ServeHTTP env am w req)) = [(w, "Unauthorized", 401%Z)] ∧
   forwarded (trace (ServeHTTP env am w req)) = []) ∧
  (∀ env' kcResp',
     resolve env' (keycloakUrl am) = resolve env (keycloakUrl am) →
     roundTrip env' client kcReq = Ok kcResp' →
     StatusCode kcResp' = StatusCode kcResp →
     responses (trace (ServeHTTP env' am w req)) = responses (trace (ServeHTTP env am w req)) ∧
     forwarded (trace (ServeHTTP env' am w req)) = forwarded (trace (ServeHTTP env am w req))).
Proof.
  intros Hq Hrt. split.
  - intros Hc.
    destruct (ServeHTTP_path env am w req);
      try match goal with H : queries _ = _ |- _ => rewrite H in Hq end;
      by wrong_path.
  - intros env' kcResp' Hres Hrt' Hc.
    destruct (ServeHTTP_path env am w req);
      try match goal with H : queries _ = _ |- _ => rewrite H in Hq end;
      try (by wrong_path);
      destruct (ServeHTTP_path env' am w req);
      repeat match goal with
        | H : responses _ = _ |- _ => rewrite H; clear H
        | H : forwarded _ = _ |- _ => rewrite H; clear H
        | H : resolve env' _ = _ |- _ => rewrite Hres in H
        end;
      by wrong_path.
Qed.

(** C8: for a request that reaches the policy query (credential present, six
    segments, server URL configured), when building the query fails or
    sending it fails, the gate answers 401 with the text of the error and
    does not call the next handler. *)
Theorem upstream_failure_unauthorized env am w req err :
  Header_Get (Header req) "Authorization" ≠ "" →
  6 ≤ length (strings_Split (Path (URL req)) "/") →
  keycloakUrl am ≠ "" →
  (∃ body, http_NewRequest env "POST" (keycloakUrl am) body = Err err) ∨
  (∃ client kcReq, (client, kcReq) ∈ queries (trace (ServeHTTP env am w req)) ∧
                   roundTrip env client kcReq = Err err) →
  responses (trace (ServeHTTP env am w req)) = [(w, err, 401%Z)] ∧
  forwarded (trace (ServeHTTP env am w req)) = [].
Proof.
  intros Hh Hl Hu [[body Hnew]|(client & kcReq & Hq & Hrt)].
  - unfold http_NewRequest in Hnew.
    destruct (ServeHTTP_path env am w req);
      try match goal with H : resolve _ _ = _ |- _ => rewrite H in Hnew end;
      by wrong_path.
  - destruct (ServeHTTP_path env am w req);
      try match goal with H : queries _ = _ |- _ => rewrite H in Hq end;
      by wrong_path.
Qed.

(** The form of the contract, written out: keys in byte order, values
    query-escaped. *)
Lemma contract_body permission audience :
  Values_Encode (contract_fields permission audience)
  = "audience=" +:+ url_QueryEscape audience
    +:+ "&grant_type=urn%3Aietf%3Aparams%3Aoauth%3Agrant-type%3Auma-ticket&permission="
    +:+ url_QueryEscape permission.
Proof. vm_compute. reflexivity. Qed.

Lemma contract_fields_dom permission audience :
  dom (contract_fields permission audience)
  = ({[ "permission"; "grant_type"; "audience" ]} : gset string).
Proof. unfold contract_fields. rewrite !dom_insert_L, dom_singleton_L. set_solver. Qed.

(** A run that gets past the path check sends exactly the query of the
    contract when the server URL is set and resolves. *)
Lemma ServeHTTP_query env am w req resource scope u :
  Header_Get (Header req) "Authorization" ≠ "" →
  strings_Split (Path (URL req)) "/" !! 4 = Some resource →
  strings_Split (Path (URL req)) "/" !! 5 = Some scope →
  keycloakUrl am ≠ "" →
  resolve env (keycloakUrl am) = Ok u →
  queries (trace (ServeHTTP env am w req))
  = [(the_client,
      contract_query u (Header_Get (Header req) "Authorization")
        ("/" +:+ resource +:+ "#" +:+ scope) (keycloakClientId am))].
Proof.
  intros Hh Hr Hs Hu Hres.
  destruct (ServeHTTP_path env am w req);
    try match goal with H : queries _ = _ |- _ => rewrite H end; by wrong_path.
Qed.

(** A run that gets past the path check reports the permission made of the
    segments 4 and 5. *)
Lemma ServeHTTP_derived env am w req resource scope :
  Header_Get (Header req) "Authorization" ≠ "" →
  strings_Split (Path (URL req)) "/" !! 4 = Some resource →
  strings_Split (Path (URL req)) "/" !! 5 = Some scope →
  derived (trace (ServeHTTP env am w req)) = ["/" +:+ resource +:+ "#" +:+ scope].
Proof.
  intros Hh Hr Hs.
  destruct (ServeHTTP_path env am w req);
    try match goal with H : derived _ = _ |- _ => rewrite H end; by wrong_path.
Qed.

(** C9: the policy query of a request that reaches the dispatch step is a
    POST to the configured server URL; its body is the form encoding of
    exactly the fields permission (the derived "/<resource>#<scope>"),
    grant_type (the UMA ticket constant) and audience (the configured client
    identifier); it carries the Authorization value of the inbound request
    and the form content type. *)
Theorem policy_query_contract env am w req resource scope u :
  Header_Get (Header req) "Authorization" ≠ "" →
  strings_Split (Path (URL req)) "/" !! 4 = Some resource →
  strings_Split (Path (URL req)) "/" !! 5 = Some scope →
  keycloakUrl am ≠ "" →
  resolve env (keycloakUrl am) = Ok u →
  ∃ kcReq (formData : url_Values),
    queries (trace (ServeHTTP env am w req)) = [(the_client, kcReq)] ∧
    Method kcReq = "POST" ∧
    URL kcReq = u ∧
    Body kcReq = Values_Encode formData ∧
    dom formData = ({[ "permission"; "grant_type"; "audience" ]} : gset string) ∧
    formData !! "permission" = Some ["/" +:+ resource +:+ "#" +:+ scope] ∧
    formData !! "grant_type" = Some ["urn:ietf:params:oauth:grant-type:uma-ticket"] ∧
    formData !! "audience" = Some [keycloakClientId am] ∧
    Body kcReq
    = "audience=" +:+ url_QueryEscape (keycloakClientId am)
      +:+ "&grant_type=urn%3Aietf%3Aparams%3Aoauth%3Agrant-type%3Auma-ticket&permission="
      +:+ url_QueryEscape ("/" +:+ resource +:+ "#" +:+ scope) ∧
    dom (Header kcReq) = ({[ "Authorization"; "Content-Type" ]} : gset string) ∧
    Header kcReq !! "Authorization" = Some [Header_Get (Header req) "Authorization"] ∧
    Header kcReq !! "Content-Type" = Some ["application/x-www-form-urlencoded"].
Proof.
  intros Hh Hr Hs Hu Hres.
  eexists _, (contract_fields ("/" +:+ resource +:+ "#" +:+ scope) (keycloakClientId am)).
  split; [by apply ServeHTTP_query|].
  repeat split;
    first [ apply contract_fields_dom | apply contract_body | done
          | cbn [Header contract_query]; rewrite dom_insert_L, dom_singleton_L; set_solver ].
Qed.

(** C10: the path check counts segments and does not look into them: a
    request whose segments 4 and 5 are empty, as for the path "/a/b/c//", is
    not answered 400; the gate derives the permission "/#" and, when the
    server URL is set and resolves, sends it to the server. *)
Theorem empty_segments_accepted env am w req :
  Header_Get (Header req) "Authorization" ≠ "" →
  strings_Split (Path (URL req)) "/" !! 4 = Some "" →
  strings_Split (Path (URL req)) "/" !! 5 = Some "" →
  (∀ error, (w, error, 400%Z) ∉ responses (trace (ServeHTTP env am w req))) ∧
  derived (trace (ServeHTTP env am w req)) = ["/#"] ∧
  (∀ u, keycloakUrl am ≠ "" → resolve env (keycloakUrl am) = Ok u →
        queries (trace (ServeHTTP env am w req))
        = [(the_client,
            contract_query u (Header_Get (Header req) "Authorization") "/#"
              (keycloakClientId am))]).
Proof.
  intros Hh Hr Hs. split; [|split].
  - intros error Hin.
    destruct (ServeHTTP_path env am w req);
      try match goal with H : responses _ = _ |- _ => rewrite H in Hin end;
      by wrong_path.
  - by rewrite (ServeHTTP_derived env am w req "" "").
  - intros u Hu Hres. by rewrite (ServeHTTP_query env am w req "" "" u).
Qed.

(** *** Splitting a path *)

Lemma strings_Split_nonempty s sep : strings_Split s sep ≠ [].
Proof.
  destruct s as [|c s]; simpl; [done|].
  destruct (Ascii.eqb c sep); [done|]. by destruct (strings_Split s sep).
Qed.

(** Joining the segments with the separator gives the string back. *)
Lemma strings_Split_Join s sep : strings_Join (strings_Split s sep) (String sep "") = s.
Proof.
  induction s as [|c s IH]; simpl; [done|].
  destruct (Ascii.eqb_spec c sep) as [->|Hne].
  - pose proof (strings_Split_nonempty s sep).
    destruct (strings_Split s sep) as [|seg rest]; [done|].
    simpl in *. by rewrite IH.
  - pose proof (strings_Split_nonempty s sep).
    destruct (strings_Split s sep) as [|seg rest]; [done|].
    destruct rest; simpl in *; by rewrite <- IH.
Qed.

(** Text after one more separator only adds segments at the end. *)
Lemma strings_Split_app s t sep :
  strings_Split (s +:+ String sep t) sep = strings_Split s sep ++ strings_Split t sep.
Proof.
  induction s as [|c s IH]; simpl.
  - by rewrite Ascii.eqb_refl.
  - destruct (Ascii.eqb c sep); [by rewrite IH|].
    rewrite IH. pose proof (strings_Split_nonempty s sep).
    by destruct (strings_Split s sep).
Qed.

(** C3: for a request (with a credential) whose path has at least six
    segments, the derived permission, which the gate reports and puts in the
    policy query, is "/" + segment 4 + "#" + segment 5;
    "/a/b/c/orders/read/42" gives "/orders#read"; the six-segment path
    "/a/b/c/orders/read" has resource "orders" and scope "read"; and what
    follows segment 5 does not change the derived permission. *)
Theorem permission_from_segments env am w req :
  Header_Get (Header req) "Authorization" ≠ "" →
  6 ≤ length (strings_Split (Path (URL req)) "/") →
  (∃ resource scope,
     strings_Split (Path (URL req)) "/" !! 4 = Some resource ∧
     strings_Split (Path (URL req)) "/" !! 5 = Some scope ∧
     derived (trace (ServeHTTP env am w req)) = ["/" +:+ resource +:+ "#" +:+ scope] ∧
     (∀ u, keycloakUrl am ≠ "" → resolve env (keycloakUrl am) = Ok u →
           queries (trace (ServeHTTP env am w req))
           = [(the_client,
               contract_query u (Header_Get (Header req) "Authorization")
                 ("/" +:+ resource +:+ "#" +:+ scope) (keycloakClientId am))])) ∧
  (Path (URL req) = "/a/b/c/orders/read/42" →
   derived (trace (ServeHTTP env am w req)) = ["/orders#read"]) ∧
  (Path (URL req) = "/a/b/c/orders/read" →
   length (strings_Split (Path (URL req)) "/") = 6 ∧
   strings_Split (Path (URL req)) "/" !! 4 = Some "orders" ∧
   strings_Split (Path (URL req)) "/" !! 5 = Some "read" ∧
   derived (trace (ServeHTTP env am w req)) = ["/orders#read"]) ∧
  (∀ env' am' w' req',
     Header_Get (Header req') "Authorization" ≠ "" →
     take 6 (strings_Split (Path (URL req')) "/") = take 6 (strings_Split (Path (URL req)) "/") →
     derived (trace (ServeHTTP env' am' w' req')) = derived (trace (ServeHTTP env am w req))) ∧
  (∀ env' am' w' req' rest,
     Header_Get (Header req') "Authorization" ≠ "" →
     Path (URL req') = Path (URL req) +:+ "/" +:+ rest →
     derived (trace (ServeHTTP env' am' w' req')) = derived (trace (ServeHTTP env am w req))).
Proof.
  intros Hh Hl.
  destruct (six_segments (strings_Split (Path (URL req)) "/")) as (resource & scope & Hr & Hs);
    [lia|].
  pose proof (ServeHTTP_derived env am w req resource scope Hh Hr Hs) as Hd.
  assert (∀ env' am' w' req',
     Header_Get (Header req') "Authorization" ≠ "" →
     take 6 (strings_Split (Path (URL req')) "/") = take 6 (strings_Split (Path (URL req)) "/") →
     derived (trace (ServeHTTP env' am' w' req')) = derived (trace (ServeHTTP env am w req)))
    as Htake.
  { intros env' am' w' req' Hh' Ht. rewrite Hd.
    apply ServeHTTP_derived; [done|..].
    - rewrite <- (lookup_take_lt _ 6 4), Ht, lookup_take_lt by lia. done.
    - rewrite <- (lookup_take_lt _ 6 5), Ht, lookup_take_lt by lia. done. }
  split; [by eauto 10 using ServeHTTP_query|]. split; [|split; [|split]].
  - intros Hp. rewrite Hp in Hr, Hs. simpl in Hr, Hs. by simplify_eq.
  - intros Hp. rewrite Hp in Hr, Hs |- *. simpl in Hr, Hs |- *. by simplify_eq.
  - done.
  - intros env' am' w' req' rest Hh' Hp. apply Htake; [done|].
    rewrite Hp. change ("/" +:+ rest) with (String "/" rest).
    rewrite strings_Split_app, take_app_le by lia. done.
Qed.

(** *** Construction *)

Lemma New_nil_config (ctx : Ctx) (nxt : Handler) nm :
  snd (New (ResponseWriter := ResponseWriter) ctx nxt None nm)
  = Returned (Err "nil config provided").
Proof. reflexivity. Qed.

(** [New] succeeds on every configuration, degraded or not, and copies the
    two settings as they are. *)
Lemma New_instance (ctx : Ctx) (nxt : Handler) config nm :
  snd (New (ResponseWriter := ResponseWriter) ctx nxt (Some config) nm)
  = Returned (Ok {| next := nxt; keycloakClientId := KeycloakClientId config;
                    keycloakUrl := KeycloakURL config; name := nm |}).
Proof. unfold New. do 2 case_decide; reflexivity. Qed.

(** X3: [New] prints a warning exactly for the degraded configurations:
    those whose server URL or client identifier is empty or blank. *)
Lemma New_warns (ctx : Ctx) (nxt : Handler) config nm :
  degraded config ↔
  Exists (λ e, e = Println [VStr "⚠️  [CONFIG] KeycloakURL is empty! Make sure you define it in the dynamic middleware config."]
             ∨ e = Println [VStr "⚠️  [CONFIG] KeycloakClientId is empty! Make sure you define it in the dynamic middleware config."])
    (trace (New (ResponseWriter := ResponseWriter) ctx nxt (Some config) nm)).
Proof.
  unfold degraded, New.
  do 2 case_decide; cbn; rewrite ?Exists_cons, Exists_nil;
    intuition (first [discriminate | done | auto 10]).
Qed.

(** C4, as the code has it: an instance built from a configuration with an
    empty server URL answers every request with an error, never calls the
    next handler and never sends a policy query; the error is 500
    "Misconfigured Keycloak URL" for the requests that carry a credential and
    a path of at least six segments. *)
Theorem empty_url_instance_fails (ctx : Ctx) env (nxt : Handler) config nm am w req :
  KeycloakURL config = "" →
  snd (New (ResponseWriter := ResponseWriter) ctx nxt (Some config) nm) = Returned (Ok am) →
  degraded config ∧
  forwarded (trace (ServeHTTP env am w req)) = [] ∧
  queries (trace (ServeHTTP env am w req)) = [] ∧
  (∃ error code, responses (trace (ServeHTTP env am w req)) = [(w, error, code)]
                 ∧ (code = 401 ∨ code = 400 ∨ code = 500)%Z) ∧
  (Header_Get (Header req) "Authorization" ≠ "" →
   6 ≤ length (strings_Split (Path (URL req)) "/") →
   responses (trace (ServeHTTP env am w req)) = [(w, "Misconfigured Keycloak URL", 500%Z)]).
Proof.
  intros Hu Hnew. rewrite New_instance in Hnew. simplify_eq.
  split; [left; by rewrite Hu|].
  destruct (ServeHTTP_path env
              {| next := nxt; keycloakClientId := KeycloakClientId config;
                 keycloakUrl := KeycloakURL config; name := nm |} w req);
    try (by wrong_path);
    repeat match goal with H : _ (trace _) = _ |- _ => rewrite H; clear H end;
    repeat split; first [by eauto 10 | intros; by wrong_path].
Qed.

End Properties.

(** ** Runs on sample inputs *)

Example run_granted :
  responses (trace (ServeHTTP (answering 200) demo_gate tt demo_request)) = [] ∧
  forwarded (trace (ServeHTTP (answering 200) demo_gate tt demo_request))
  = [(tt, tt, demo_request)] ∧
  queries (trace (ServeHTTP (answering 200) demo_gate tt demo_request))
  = [(the_client, demo_query)] ∧
  Body demo_query
  = "audience=gateway&grant_type=urn%3Aietf%3Aparams%3Aoauth%3Agrant-type%3Auma-ticket&permission=%2Forders%23read".
Proof. vm_compute. done. Qed.

Example run_denied :
  responses (trace (ServeHTTP (answering 403) demo_gate tt demo_request))
  = [(tt, "Unauthorized", 401%Z)] ∧
  forwarded (trace (ServeHTTP (answering 403) demo_gate tt demo_request)) = [].
Proof. vm_compute. done. Qed.

(** An instance with an empty client identifier still sends its query. *)
Example run_empty_client :
  responses (trace (ServeHTTP (answering 200)
                      (sample_gate "https://keycloak.local/realms/demo/protocol/openid-connect/token" "")
                      tt demo_request)) = [] ∧
  forwarded (trace (ServeHTTP (answering 200)
                      (sample_gate "https://keycloak.local/realms/demo/protocol/openid-connect/token" "")
                      tt demo_request)) = [(tt, tt, demo_request)] ∧
  queries (trace (ServeHTTP (answering 200)
                    (sample_gate "https://keycloak.local/realms/demo/protocol/openid-connect/token" "")
                    tt demo_request))
  = [(the_client, contract_query keycloak_endpoint "Bearer token" "/orders#read" "")].
Proof. vm_compute. done. Qed.

Example CreateConfig_degraded : degraded CreateConfig.
Proof. left. reflexivity. Qed.

Example run_malformed_url :
  responses (trace (ServeHTTP malformed demo_gate tt demo_request))
  = [(tt, "parse error", 401%Z)] ∧
  forwarded (trace (ServeHTTP malformed demo_gate tt demo_request)) = [] ∧
  queries (trace (ServeHTTP malformed demo_gate tt demo_request)) = [].
Proof. vm_compute. done. Qed.

Example split_root : strings_Split "/" "/" = [""; ""].
Proof. reflexivity. Qed.

Example split_orders :
  strings_Split "/a/b/c/orders/read/42" "/" = [""; "a"; "b"; "c"; "orders"; "read"; "42"].
Proof. reflexivity. Qed.

Example trim_blank : strings_TrimSpace "  " = "" ∧ strings_TrimSpace " a b " = "a b".
Proof. split; reflexivity. Qed.

Example escape_permission : url_QueryEscape "/orders#read me" = "%2Forders%23read+me".
Proof. reflexivity. Qed.

(** ** The properties at sample inputs *)

Lemma missing_header_unauthorized_witness :
  responses (trace (ServeHTTP (answering 200) demo_gate tt (anonymous_request "/a/b/c/orders/read/42")))
  = [(tt, "Missing Authorization header", 401%Z)] ∧
  forwarded (trace (ServeHTTP (answering 200) demo_gate tt (anonymous_request "/a/b/c/orders/read/42"))) = [] ∧
  queries (trace (ServeHTTP (answering 200) demo_gate tt (anonymous_request "/a/b/c/orders/read/42"))) = [].
Proof.
  apply (missing_header_unauthorized (answering 200) demo_gate tt
           (anonymous_request "/a/b/c/orders/read/42")).
  left. reflexivity.
Defined.

Lemma short_path_bad_request_witness :
  responses (trace (ServeHTTP (answering 200) demo_gate tt (sample_request "/a/b/c/orders" ["Bearer token"])))
  = [(tt, "Invalid path format. Expected format: /prefix/.../<resource>/<scope>", 400%Z)] ∧
  forwarded (trace (ServeHTTP (answering 200) demo_gate tt (sample_request "/a/b/c/orders" ["Bearer token"]))) = [] ∧
  queries (trace (ServeHTTP (answering 200) demo_gate tt (sample_request "/a/b/c/orders" ["Bearer token"]))) = [].
Proof.
  apply (short_path_bad_request (answering 200) demo_gate tt
           (sample_request "/a/b/c/orders" ["Bearer token"])).
  - vm_compute. discriminate.
  - vm_compute. lia.
Defined.

Lemma empty_url_internal_error_witness :
  responses (trace (ServeHTTP (answering 200) (sample_gate "" "gateway") tt demo_request))
  = [(tt, "Misconfigured Keycloak URL", 500%Z)] ∧
  forwarded (trace (ServeHTTP (answering 200) (sample_gate "" "gateway") tt demo_request)) = [] ∧
  queries (trace (ServeHTTP (answering 200) (sample_gate "" "gateway") tt demo_request)) = [].
Proof.
  apply (empty_url_internal_error (answering 200) (sample_gate "" "gateway") tt demo_request).
  - reflexivity.
  - vm_compute. discriminate.
  - vm_compute. lia.
Defined.

Lemma granted_forwards_once_witness :
  forwarded (trace (ServeHTTP (answering 200) demo_gate tt demo_request))
  = [(tt, tt, demo_request)] ∧
  responses (trace (ServeHTTP (answering 200) demo_gate tt demo_request)) = [].
Proof.
  apply (granted_forwards_once (answering 200) demo_gate tt demo_request
           the_client demo_query (answer 200)).
  - vm_compute. apply list_elem_of_here.
  - reflexivity.
  - reflexivity.
Defined.

Lemma decision_by_status_code_witness :
  responses (trace (ServeHTTP (answering 403) demo_gate tt demo_request))
  = [(tt, "Unauthorized", 401%Z)] ∧
  forwarded (trace (ServeHTTP (answering 403) demo_gate tt demo_request)) = [].
Proof.
  apply (decision_by_status_code (answering 403) demo_gate tt demo_request
           the_client demo_query (answer 403)).
  - vm_compute. apply list_elem_of_here.
  - reflexivity.
  - vm_compute. discriminate.
Defined.

Lemma upstream_failure_unauthorized_witness :
  responses (trace (ServeHTTP refusing demo_gate tt demo_request))
  = [(tt, "connection refused", 401%Z)] ∧
  forwarded (trace (ServeHTTP refusing demo_gate tt demo_request)) = [].
Proof.
  apply (upstream_failure_unauthorized refusing demo_gate tt demo_request "connection refused").
  - vm_compute. discriminate.
  - vm_compute. lia.
  - vm_compute. discriminate.
  - right. exists the_client, demo_query. split.
    + vm_compute. apply list_elem_of_here.
    + reflexivity.
Defined.

Lemma policy_query_contract_witness :
  ∃ kcReq (formData : url_Values),
    queries (trace (ServeHTTP (answering 200) demo_gate tt demo_request)) = [(the_client, kcReq)] ∧
    Method kcReq = "POST" ∧
    URL kcReq = keycloak_endpoint ∧
    Body kcReq = Values_Encode formData ∧
    dom formData = ({[ "permission"; "grant_type"; "audience" ]} : gset string) ∧
    formData !! "permission" = Some ["/" +:+ "orders" +:+ "#" +:+ "read"] ∧
    formData !! "grant_type" = Some ["urn:ietf:params:oauth:grant-type:uma-ticket"] ∧
    formData !! "audience" = Some [keycloakClientId demo_gate] ∧
    Body kcReq
    = "audience=" +:+ url_QueryEscape (keycloakClientId demo_gate)
      +:+ "&grant_type=urn%3Aietf%3Aparams%3Aoauth%3Agrant-type%3Auma-ticket&permission="
      +:+ url_QueryEscape ("/" +:+ "orders" +:+ "#" +:+ "read") ∧
    dom (Header kcReq) = ({[ "Authorization"; "Content-Type" ]} : gset string) ∧
    Header kcReq !! "Authorization" = Some [Header_Get (Header demo_request) "Authorization"] ∧
    Header kcReq !! "Content-Type" = Some ["application/x-www-form-urlencoded"].
Proof.
  apply (policy_query_contract (answering 200) demo_gate tt demo_request
           "orders" "read" keycloak_endpoint).
  - vm_compute. discriminate.
  - reflexivity.
  - reflexivity.
  - vm_compute. discriminate.
  - reflexivity.
Defined.

Lemma empty_segments_accepted_witness :
  (∀ error, (tt, error, 400%Z)
            ∉ responses (trace (ServeHTTP (answering 200) demo_gate tt
                                  (sample_request "/a/b/c//" ["Bearer token"])))) ∧
  derived (trace (ServeHTTP (answering 200) demo_gate tt
                    (sample_request "/a/b/c//" ["Bearer token"]))) = ["/#"] ∧
  (∀ u, keycloakUrl demo_gate ≠ "" → resolve (answering 200) (keycloakUrl demo_gate) = Ok u →
        queries (trace (ServeHTTP (answering 200) demo_gate tt
                          (sample_request "/a/b/c//" ["Bearer token"])))
        = [(the_client,
            contract_query u (Header_Get (Header (sample_request "/a/b/c//" ["Bearer token"]))
                                "Authorization") "/#"
              (keycloakClientId demo_gate))]).
Proof.
  apply (empty_segments_accepted (answering 200) demo_gate tt
           (sample_request "/a/b/c//" ["Bearer token"])).
  - vm_compute. discriminate.
  - reflexivity.
  - reflexivity.
Defined.

Lemma permission_from_segments_witness :
  derived (trace (ServeHTTP (answering 200) demo_gate tt demo_request)) = ["/orders#read"].
Proof.
  destruct (permission_from_segments (answering 200) demo_gate tt demo_request)
    as (_ & Hexample & _).
  - vm_compute. discriminate.
  - vm_compute. lia.
  - apply Hexample. reflexivity.
Defined.

Lemma empty_url_instance_fails_witness :
  responses (trace (ServeHTTP (answering 200) (sample_gate "" "gateway") tt demo_request))
  = [(tt, "Misconfigured Keycloak URL", 500%Z)].
Proof.
  destruct (empty_url_instance_fails (ResponseWriter := unit) tt (answering 200) tt
              {| KeycloakURL := ""; KeycloakClientId := "gateway" |} "authz"
              (sample_gate "" "gateway") tt demo_request)
    as (_ & _ & _ & _ & Hfails).
  - reflexivity.
  - reflexivity.
  - apply Hfails.
    + vm_compute. discriminate.
    + vm_compute. lia.
Defined.

(** C4 as stated fails: an instance built with an empty client identifier is
    degraded, yet with a server that answers 200 it sends the policy query
    and calls the next handler, and writes no 500. *)
Lemma degraded_instance_passes_request :
  ¬ (∀ env (config : Config) (am : AuthMiddleware unit) (w : unit) req,
       degraded config →
       snd (New (ResponseWriter := unit) tt tt (Some config) "authz") = Returned (Ok am) →
       (∃ error, responses (trace (ServeHTTP env am w req)) = [(w, error, 500%Z)]) ∧
       forwarded (trace (ServeHTTP env am w req)) = [] ∧
       queries (trace (ServeHTTP env am w req)) = []).
Proof.
  intros Hclaim.
  destruct (Hclaim (answering 200)
              {| KeycloakURL := "https://keycloak.local/realms/demo/protocol/openid-connect/token";
                 KeycloakClientId := "" |}
              (sample_gate "https://keycloak.local/realms/demo/protocol/openid-connect/token" "")
              tt demo_request) as (_ & Hforwarded & _).
  - right. reflexivity.
  - reflexivity.
  - vm_compute in Hforwarded. discriminate.
Qed.

(** ** Further properties of the code *)

(** Splits a goal along the seven paths, naming what selects each. *)
Ltac gate_cases env am w req :=
  destruct (decide (Header_Get (Header req) "Authorization" = "")) as [Hh|Hh];
  [| destruct (decide (length (strings_Split (Path (URL req)) "/") < 6)) as [Hl|Hl];
     [| destruct (six_segments _ Hl) as (resource & scope & Hr & Hs);
        destruct (decide (keycloakUrl am = "")) as [Hu|Hu];
        [| destruct (resolve env (keycloakUrl am)) as [u|err] eqn:Hres;
           [ destruct (roundTrip env the_client
                         (contract_query u (Header_Get (Header req) "Authorization")
                            ("/" +:+ resource +:+ "#" +:+ scope) (keycloakClientId am)))
               as [kcResp|err] eqn:Hrt;
             [ destruct (decide (StatusCode kcResp = StatusOK)) as [Hc|Hc] |] |] ] ] ].

(** Evaluates the run in the goal along the path the context selects. *)
Ltac gate_eval :=
  unfold ServeHTTP, index, http_NewRequest; gate_decide;
  cbn -[Values_Encode Values_Set Header_Set Header_Get String.append strings_Split];
  try (rewrite built_query_eq; fold the_client;
       match goal with H : roundTrip _ _ _ = _ |- _ => rewrite H end;
       gate_decide;
       cbn -[Values_Encode Values_Set Header_Set Header_Get String.append strings_Split
             contract_query the_client]).

(** Finds an element in a list that is written out. *)
Ltac in_list :=
  solve [repeat first [apply list_elem_of_here | apply list_elem_of_further]].

Section Further.
Context {ResponseWriter Handler Ctx : Type}.
Implicit Types (env : Env) (am : AuthMiddleware Handler) (w : ResponseWriter)
  (req : http_Request).

(** X5: leaving the prints aside, a run is one of four sequences of calls:
    an error reply alone (no query was sent); the query and then an error
    reply (the query could not be sent); the query, the next handler and the
    closing of the response body; the query, the 401 reply and the closing of
    the response body.  So the query comes before any decision, the body of a
    received response is closed once and last, and nothing is closed when no
    response came. *)
Theorem ServeHTTP_effects env am w req :
  (∃ error code, effects (trace (ServeHTTP env am w req)) = [http_Error w error code]) ∨
  (∃ kcReq err,
     roundTrip env the_client kcReq = Err err ∧
     effects (trace (ServeHTTP env am w req))
     = [client_Do the_client kcReq; http_Error w err 401%Z]) ∨
  (∃ kcReq kcResp,
     roundTrip env the_client kcReq = Ok kcResp ∧ StatusCode kcResp = 200%Z ∧
     effects (trace (ServeHTTP env am w req))
     = [client_Do the_client kcReq; next_ServeHTTP (next am) w req; Body_Close kcResp]) ∨
  (∃ kcReq kcResp,
     roundTrip env the_client kcReq = Ok kcResp ∧ StatusCode kcResp ≠ 200%Z ∧
     effects (trace (ServeHTTP env am w req))
     = [client_Do the_client kcReq; http_Error w "Unauthorized" 401%Z; Body_Close kcResp]).
Proof.
  gate_cases env am w req.
  - left. eexists _, _. gate_eval. reflexivity.
  - left. eexists _, _. gate_eval. reflexivity.
  - left. eexists _, _. gate_eval. reflexivity.
  - right. right. left. eexists _, kcResp. split; [exact Hrt|]. split; [exact Hc|].
    gate_eval. reflexivity.
  - right. right. right. eexists _, kcResp. split; [exact Hrt|]. split; [exact Hc|].
    gate_eval. reflexivity.
  - right. left. eexists _, err. split; [exact Hrt|]. gate_eval. reflexivity.
  - left. eexists _, _. gate_eval. reflexivity.
Qed.

(** X6: every run ends in exactly one of two ways: one error reply, with
    status 400, 401 or 500, and no call of the next handler; or one call of
    the next handler and no error reply.  There is no run with both, with
    neither, or with two replies. *)
Theorem one_reply_or_one_forward env am w req :
  (∃ error code,
     responses (trace (ServeHTTP env am w req)) = [(w, error, code)] ∧
     (code = 400 ∨ code = 401 ∨ code = 500)%Z ∧
     forwarded (trace (ServeHTTP env am w req)) = []) ∨
  (responses (trace (ServeHTTP env am w req)) = [] ∧
   forwarded (trace (ServeHTTP env am w req)) = [(next am, w, req)]).
Proof.
  destruct (ServeHTTP_path env am w req);
    repeat match goal with
      | H : responses _ = _ |- _ => rewrite H; clear H
      | H : forwarded _ = _ |- _ => rewrite H; clear H
      end;
    first [ by right | left; eexists _, _; split; [reflexivity|]; split; [|done];
                       unfold StatusBadRequest, StatusUnauthorized,
                         StatusInternalServerError; by auto ].
Qed.

(** X7: the next handler is called only after Keycloak has answered the
    policy query of this request with status 200; the call then is of the
    configured handler with the writer and request of this run. *)
Theorem forwarded_only_on_200 env am w req h w' r :
  (h, w', r) ∈ forwarded (trace (ServeHTTP env am w req)) →
  h = next am ∧ w' = w ∧ r = req ∧
  Header_Get (Header req) "Authorization" ≠ "" ∧
  6 ≤ length (strings_Split (Path (URL req)) "/") ∧
  keycloakUrl am ≠ "" ∧
  ∃ kcReq kcResp,
    queries (trace (ServeHTTP env am w req)) = [(the_client, kcReq)] ∧
    roundTrip env the_client kcReq = Ok kcResp ∧
    StatusCode kcResp = 200%Z.
Proof.
  intros Hf.
  destruct (ServeHTTP_path env am w req);
    try match goal with H : forwarded _ = _ |- _ => rewrite H in Hf end;
    try (by wrong_path).
  apply list_elem_of_singleton in Hf. simplify_eq.
  repeat split; try done.
  - repeat match goal with H : _ !! _ = Some _ |- _ => apply segment_length in H end. lia.
  - eauto.
Qed.


(** X10: the credential of every request that carries one is printed on the
    standard output of the process. *)
Theorem credential_printed env am w req :
  Header_Get (Header req) "Authorization" ≠ "" →
  VStr (Header_Get (Header req) "Authorization") ∈ printed (trace (ServeHTTP env am w req)).
Proof.
  intros Hne. gate_cases env am w req; [done|..]; gate_eval; in_list.
Qed.

(** X11: the status line and the whole body of every answer that Keycloak
    gives, granted or not, are printed on the standard output. *)
Theorem response_printed env am w req client kcReq reply :
  (client, kcReq) ∈ queries (trace (ServeHTTP env am w req)) →
  roundTrip env client kcReq = Ok reply →
  VStr (Status reply) ∈ printed (trace (ServeHTTP env am w req)) ∧
  VStr (RespBody reply) ∈ printed (trace (ServeHTTP env am w req)).
Proof.
  intros Hq Hrt0. revert Hq.
  gate_cases env am w req; gate_eval; intros Hq;
    try (by apply not_elem_of_nil in Hq);
    apply list_elem_of_singleton in Hq; simplify_eq;
    rewrite Hrt in Hrt0; simplify_eq.
  all: split; in_list.
Qed.

(** X12: the method, the body, the query string and every header other than
    the first Authorization value have no say: two requests with the same
    first Authorization value and the same path get the same replies and the
    same policy query, and are forwarded or not alike. *)
Theorem decision_ignores_rest_of_request env am w req req' :
  Header_Get (Header req') "Authorization" = Header_Get (Header req) "Authorization" →
  Path (URL req') = Path (URL req) →
  responses (trace (ServeHTTP env am w req')) = responses (trace (ServeHTTP env am w req)) ∧
  queries (trace (ServeHTTP env am w req')) = queries (trace (ServeHTTP env am w req)) ∧
  forwarded (trace (ServeHTTP env am w req'))
  = (λ call, (call.1.1, call.1.2, req')) <$> forwarded (trace (ServeHTTP env am w req)).
Proof.
  intros Hhdr Hpath.
  destruct (ServeHTTP_path env am w req');
    repeat match goal with x := _ |- _ => subst x end;
    rewrite ?Hhdr, ?Hpath in *;
    destruct (ServeHTTP_path env am w req);
    repeat match goal with
      | H : responses _ = _ |- _ => rewrite H; clear H
      | H : forwarded _ = _ |- _ => rewrite H; clear H
      | H : queries _ = _ |- _ => rewrite H; clear H
      end;
    by wrong_path.
Qed.

(** [strings.Split] gives one segment more than there are separators. *)
Lemma strings_Split_length s sep :
  length (strings_Split s sep) = S (strings_Count s sep).
Proof.
  induction s as [|c s IH]; simpl; [done|].
  destruct (Ascii.eqb c sep); simpl; [by rewrite IH|].
  rewrite <- IH. by destruct (strings_Split s sep).
Qed.

(** No segment contains the separator. *)
Lemma strings_Split_no_sep s sep seg :
  seg ∈ strings_Split s sep → strings_Count seg sep = 0.
Proof.
  revert seg. induction s as [|c s IH]; simpl; intros seg Hin.
  - apply list_elem_of_singleton in Hin. by subst.
  - destruct (Ascii.eqb c sep) eqn:Hc.
    + apply elem_of_cons in Hin as [->|Hin]; [done|by apply IH].
    + destruct (strings_Split s sep) as [|seg0 rest].
      * apply list_elem_of_singleton in Hin. subst. simpl. by rewrite Hc.
      * apply elem_of_cons in Hin as [->|Hin].
        -- simpl. rewrite Hc. apply IH. apply list_elem_of_here.
        -- apply IH. by apply list_elem_of_further.
Qed.

Lemma strings_Count_app s t sep :
  strings_Count (s +:+ t) sep = strings_Count s sep + strings_Count t sep.
Proof. induction s as [|c s IH]; simpl; [done|]. rewrite IH. lia. Qed.

(** Two texts cut at the first occurrence of a byte are equal only if both
    sides of the cut are. *)
Lemma append_sep_inj x x' y y' sep :
  strings_Count x sep = 0 → strings_Count x' sep = 0 →
  x +:+ String sep y = x' +:+ String sep y' → x = x' ∧ y = y'.
Proof.
  revert x'. induction x as [|c x IH]; intros [|c' x'] Hx Hx' Heq; simpl in *.
  - by simplify_eq.
  - simplify_eq. by rewrite Ascii.eqb_refl in Hx'.
  - simplify_eq. by rewrite Ascii.eqb_refl in Hx.
  - simplify_eq. destruct (Ascii.eqb c' sep); [done|].
    destruct (IH x') as [-> ->]; done.
Qed.

(** X13: a request with a credential is answered 400 exactly when its path
    holds fewer than five slashes, whatever stands between them. *)
Theorem bad_request_iff_few_slashes env am w req :
  Header_Get (Header req) "Authorization" ≠ "" →
  (∃ error, (w, error, 400%Z) ∈ responses (trace (ServeHTTP env am w req)))
  ↔ strings_Count (Path (URL req)) "/" < 5.
Proof.
  intros Hne.
  pose proof (strings_Split_length (Path (URL req)) "/") as Hlen.
  split.
  - intros [error Hin].
    destruct (ServeHTTP_path env am w req);
      match goal with H : responses _ = _ |- _ => rewrite H in Hin end;
      try (by wrong_path); lia.
  - intros Hfew.
    destruct (ServeHTTP_path env am w req);
      match goal with H : responses _ = _ |- _ => rewrite H end;
      try (by wrong_path);
      first [ eexists; apply list_elem_of_here
            | repeat match goal with H : _ !! _ = Some _ |- _ => apply segment_length in H end;
              lia ].
Qed.

(** X14: the 500 reply is written exactly when the request has a credential
    and at least six segments and the stored server URL is the empty string;
    a URL that is not empty, be it blank or malformed, never gives a 500. *)
Theorem internal_error_iff_empty_url env am w req :
  (∃ error, (w, error, 500%Z) ∈ responses (trace (ServeHTTP env am w req)))
  ↔ Header_Get (Header req) "Authorization" ≠ ""
    ∧ 6 ≤ length (strings_Split (Path (URL req)) "/")
    ∧ keycloakUrl am = "".
Proof.
  split.
  - intros [error Hin].
    destruct (ServeHTTP_path env am w req);
      match goal with H : responses _ = _ |- _ => rewrite H in Hin end;
      by wrong_path.
  - intros (Hne & Hlen & Hu).
    destruct (ServeHTTP_path env am w req);
      match goal with H : responses _ = _ |- _ => rewrite H end;
      try (by wrong_path).
    eexists. apply list_elem_of_here.
Qed.

(** X16: the resource and the scope never hold a slash, so the only slash
    of a derived permission is its first byte. *)
Theorem permission_has_one_slash env am w req permission :
  permission ∈ derived (trace (ServeHTTP env am w req)) →
  strings_Count permission "/" = 1.
Proof.
  intros Hin.
  destruct (ServeHTTP_path env am w req);
    match goal with H : derived _ = _ |- _ => rewrite H in Hin end;
    try (by apply not_elem_of_nil in Hin);
    apply list_elem_of_singleton in Hin; subst;
    repeat match goal with
      | H : _ !! _ = Some _ |- _ =>
          apply list_elem_of_lookup_2, strings_Split_no_sep in H
      end;
    change ("/" +:+ resource +:+ "#" +:+ scope)
      with (String "/" (resource +:+ String "#" scope));
    simpl; rewrite strings_Count_app; simpl; lia.
Qed.

(** X17: when the resources hold no [#], the derived permission tells the
    resource and the scope apart: two requests that derive the same
    permission have the same segment 4 and the same segment 5. *)
Theorem permission_determines_segments env am w req env' am' w' req'
    resource scope resource' scope' :
  Header_Get (Header req) "Authorization" ≠ "" →
  Header_Get (Header req') "Authorization" ≠ "" →
  strings_Split (Path (URL req)) "/" !! 4 = Some resource →
  strings_Split (Path (URL req)) "/" !! 5 = Some scope →
  strings_Split (Path (URL req')) "/" !! 4 = Some resource' →
  strings_Split (Path (URL req')) "/" !! 5 = Some scope' →
  strings_Count resource "#" = 0 →
  strings_Count resource' "#" = 0 →
  derived (trace (ServeHTTP env am w req)) = derived (trace (ServeHTTP env' am' w' req')) →
  resource = resource' ∧ scope = scope'.
Proof.
  intros Hh Hh' Hr Hs Hr' Hs' Hc Hc' Heq.
  rewrite (ServeHTTP_derived env am w req resource scope),
    (ServeHTTP_derived env' am' w' req' resource' scope') in Heq by done.
  simplify_eq/=. by apply (append_sep_inj _ _ _ _ "#").
Qed.

(** *** The form body *)

Lemma url_QueryEscape_cons c s :
  url_QueryEscape (String c s) = url_QueryEscape (String c "") +:+ url_QueryEscape s.
Proof.
  simpl. destruct (Ascii.eqb c " "); [done|]. by destruct (shouldEscape c).
Qed.

Lemma unescape_escaped_byte c t :
  url_QueryUnescape (url_QueryEscape (String c "") +:+ t) = String c <$> url_QueryUnescape t.
Proof. destruct c as [[] [] [] [] [] [] [] []]; reflexivity. Qed.

(** Unescaping undoes escaping. *)
Lemma QueryEscape_round_trip s : url_QueryUnescape (url_QueryEscape s) = Some s.
Proof.
  induction s as [|c s IH]; [done|].
  by rewrite url_QueryEscape_cons, unescape_escaped_byte, IH.
Qed.

Lemma QueryEscape_inj s t : url_QueryEscape s = url_QueryEscape t → s = t.
Proof.
  intros Heq. apply (f_equal url_QueryUnescape) in Heq.
  rewrite !QueryEscape_round_trip in Heq. by simplify_eq.
Qed.

Lemma allBytes_app p s t : allBytes p (s +:+ t) = allBytes p s && allBytes p t.
Proof. induction s as [|c s IH]; simpl; [done|]. by rewrite IH, andb_assoc. Qed.

Lemma escaped_byte_ok c : allBytes escapedByte (url_QueryEscape (String c "")) = true.
Proof. destruct c as [[] [] [] [] [] [] [] []]; reflexivity. Qed.

(** An escaped text holds only unreserved bytes, [+] and [%]. *)
Lemma QueryEscape_bytes s : allBytes escapedByte (url_QueryEscape s) = true.
Proof.
  induction s as [|c s IH]; [done|].
  by rewrite url_QueryEscape_cons, allBytes_app, escaped_byte_ok, IH.
Qed.

Lemma allBytes_Count p s c : allBytes p s = true → p c = false → strings_Count s c = 0.
Proof.
  intros Hall Hc. induction s as [|d s IH]; simpl in *; [done|].
  apply andb_true_iff in Hall as [Hd Hall]. rewrite IH by done.
  destruct (Ascii.eqb_spec d c) as [->|]; [congruence|done].
Qed.

Lemma QueryEscape_Count s c : escapedByte c = false → strings_Count (url_QueryEscape s) c = 0.
Proof. apply allBytes_Count, QueryEscape_bytes. Qed.

(** What a run that has sent a query has sent and derived. *)
Lemma query_sent_shape env am w req client kcReq :
  (client, kcReq) ∈ queries (trace (ServeHTTP env am w req)) →
  ∃ u permission,
    client = the_client ∧
    kcReq = contract_query u (Header_Get (Header req) "Authorization") permission
              (keycloakClientId am) ∧
    derived (trace (ServeHTTP env am w req)) = [permission].
Proof.
  intros Hq.
  destruct (ServeHTTP_path env am w req);
    match goal with H : queries _ = _ |- _ => rewrite H in Hq end;
    try (by apply not_elem_of_nil in Hq);
    apply list_elem_of_singleton in Hq; simplify_eq; eauto.
Qed.

(** X18: the body of a policy query reads back: between the fixed texts
    stand two escaped values, and unescaping them as the server does gives
    the stored client identifier and the derived permission, byte for
    byte. *)
Theorem query_body_decodes env am w req client kcReq :
  (client, kcReq) ∈ queries (trace (ServeHTTP env am w req)) →
  ∃ audience permission,
    Body kcReq
    = "audience=" +:+ audience
      +:+ "&grant_type=urn%3Aietf%3Aparams%3Aoauth%3Agrant-type%3Auma-ticket&permission="
      +:+ permission ∧
    url_QueryUnescape audience = Some (keycloakClientId am) ∧
    url_QueryUnescape "urn%3Aietf%3Aparams%3Aoauth%3Agrant-type%3Auma-ticket"
    = Some "urn:ietf:params:oauth:grant-type:uma-ticket" ∧
    (Some <$> derived (trace (ServeHTTP env am w req))) = [url_QueryUnescape permission].
Proof.
  intros Hq. destruct (query_sent_shape _ _ _ _ _ _ Hq) as (u & permission & -> & -> & Hd).
  exists (url_QueryEscape (keycloakClientId am)), (url_QueryEscape permission).
  rewrite Hd, !QueryEscape_round_trip. repeat split.
Qed.

(** X19: whatever bytes the path segments and the client identifier hold,
    the body of a policy query has exactly two [&] and three [=]: no input
    can add a form field or cut one short. *)
Theorem query_body_three_fields env am w req client kcReq :
  (client, kcReq) ∈ queries (trace (ServeHTTP env am w req)) →
  strings_Count (Body kcReq) "&" = 2 ∧ strings_Count (Body kcReq) "=" = 3.
Proof.
  intros Hq. destruct (query_sent_shape _ _ _ _ _ _ Hq) as (u & permission & -> & -> & Hd).
  cbn [Body contract_query]. rewrite contract_body, !strings_Count_app.
  rewrite !QueryEscape_Count by reflexivity. split; reflexivity.
Qed.

(** X20: the body of a policy query determines the client identifier and
    the permission it was built from: two runs that send the same body have
    the same client identifier and derived the same permission. *)
Theorem query_body_injective env am w req client kcReq env' am' w' req' client' kcReq' :
  (client, kcReq) ∈ queries (trace (ServeHTTP env am w req)) →
  (client', kcReq') ∈ queries (trace (ServeHTTP env' am' w' req')) →
  Body kcReq = Body kcReq' →
  keycloakClientId am = keycloakClientId am' ∧
  derived (trace (ServeHTTP env am w req)) = derived (trace (ServeHTTP env' am' w' req')).
Proof.
  intros Hq Hq' Heq.
  destruct (query_sent_shape _ _ _ _ _ _ Hq) as (u & p & -> & -> & ->).
  destruct (query_sent_shape _ _ _ _ _ _ Hq') as (u' & p' & -> & -> & ->).
  cbn [Body contract_query] in Heq. rewrite !contract_body in Heq.
  simpl in Heq. simplify_eq.
  match goal with H : _ +:+ _ = _ +:+ _ |- _ =>
    apply (append_sep_inj _ _ _ _ "&") in H as [Ha Hrest];
      [|by apply QueryEscape_Count..]
  end.
  simplify_eq. apply QueryEscape_inj in Ha.
  match goal with H : url_QueryEscape _ = url_QueryEscape _ |- _ =>
    apply QueryEscape_inj in H
  end.
  by subst.
Qed.

(** *** Construction, again *)

(** X1: [New] returns an error exactly when the configuration is nil, and
    the error then reads "nil config provided"; every other configuration,
    degraded or not, gives an instance. *)
Theorem New_fails_only_on_nil (ctx : Ctx) (nxt : Handler) config nm :
  ((∃ err, snd (New (ResponseWriter := ResponseWriter) ctx nxt config nm) = Returned (Err err))
   ↔ config = None) ∧
  (∀ err, snd (New (ResponseWriter := ResponseWriter) ctx nxt config nm) = Returned (Err err) →
          err = "nil config provided") ∧
  (config ≠ None →
   ∃ am, snd (New (ResponseWriter := ResponseWriter) ctx nxt config nm) = Returned (Ok am)).
Proof.
  destruct config as [c|].
  - rewrite New_instance. repeat split; try done.
    + by intros [err ?].
    + by eauto.
  - rewrite New_nil_config. repeat split; try done.
    + by eauto.
    + intros err ?. by simplify_eq.
Qed.

(** X2: the instance [New] builds uses what it was given and nothing else:
    it forwards to no handler but the one passed to [New], its policy query
    goes to the server URL of the configuration and names the client
    identifier of the configuration as audience, both untrimmed. *)
Theorem New_then_ServeHTTP (ctx : Ctx) (nxt : Handler) c nm am env w req :
  snd (New (ResponseWriter := ResponseWriter) ctx nxt (Some c) nm) = Returned (Ok am) →
  (∀ h w' r, (h, w', r) ∈ forwarded (trace (ServeHTTP env am w req)) → h = nxt) ∧
  (∀ client kcReq,
     (client, kcReq) ∈ queries (trace (ServeHTTP env am w req)) →
     resolve env (KeycloakURL c) = Ok (URL kcReq) ∧
     ∃ permission,
       Body kcReq = Values_Encode (contract_fields permission (KeycloakClientId c))).
Proof.
  rewrite New_instance. intros Hnew. simplify_eq. split.
  - intros h w' r Hf.
    destruct (ServeHTTP_path env
                {| next := nxt; keycloakClientId := KeycloakClientId c;
                   keycloakUrl := KeycloakURL c; name := nm |} w req);
      match goal with H : forwarded _ = _ |- _ => rewrite H in Hf end;
      by wrong_path.
  - intros client kcReq Hq.
    destruct (ServeHTTP_path env
                {| next := nxt; keycloakClientId := KeycloakClientId c;
                   keycloakUrl := KeycloakURL c; name := nm |} w req);
      match goal with H : queries _ = _ |- _ => rewrite H in Hq end;
      try (by apply not_elem_of_nil in Hq);
      apply list_elem_of_singleton in Hq; simplify_eq; by eauto.
Qed.

(** X15: a server URL that is blank but not empty is warned about by [New]
    and then used as it is: the instance never replies 500, and for a
    request with a credential and six segments it hands the blank URL to
    [http.NewRequest], replying 401 with the error if that fails and sending
    the policy query if it does not. *)
Theorem blank_url_warned_not_guarded (ctx : Ctx) (nxt : Handler) c nm am :
  strings_TrimSpace (KeycloakURL c) = "" →
  KeycloakURL c ≠ "" →
  snd (New (ResponseWriter := ResponseWriter) ctx nxt (Some c) nm) = Returned (Ok am) →
  Println [VStr "⚠️  [CONFIG] KeycloakURL is empty! Make sure you define it in the dynamic middleware config."]
    ∈ trace (New (ResponseWriter := ResponseWriter) ctx nxt (Some c) nm) ∧
  (∀ env w req error, (w, error, 500%Z) ∉ responses (trace (ServeHTTP env am w req))) ∧
  (∀ env w req,
     Header_Get (Header req) "Authorization" ≠ "" →
     6 ≤ length (strings_Split (Path (URL req)) "/") →
     (∃ err, resolve env (KeycloakURL c) = Err err ∧
             responses (trace (ServeHTTP env am w req)) = [(w, err, 401%Z)]) ∨
     (∃ u kcReq, resolve env (KeycloakURL c) = Ok u ∧ URL kcReq = u ∧
                 queries (trace (ServeHTTP env am w req)) = [(the_client, kcReq)])).
Proof.
  intros Hblank Hne. rewrite New_instance. intros Hnew. simplify_eq.
  split; [|split].
  - unfold New. rewrite (decide_True (P := strings_TrimSpace (KeycloakURL c) = "")) by done.
    case_decide; cbn; in_list.
  - intros env w req error Hin.
    destruct (ServeHTTP_path env
                {| next := nxt; keycloakClientId := KeycloakClientId c;
                   keycloakUrl := KeycloakURL c; name := nm |} w req);
      match goal with H : responses _ = _ |- _ => rewrite H in Hin end;
      by wrong_path.
  - intros env w req Hh Hl.
    destruct (ServeHTTP_path env
                {| next := nxt; keycloakClientId := KeycloakClientId c;
                   keycloakUrl := KeycloakURL c; name := nm |} w req);
      try (by wrong_path);
      repeat match goal with x := _ |- _ => subst x end;
      simpl in *; unfold StatusUnauthorized in *;
      first [ left; eexists; split; eassumption
            | right; eexists _, _; split; [eassumption|]; split; [|eassumption];
              reflexivity ].
Qed.

End Further.

(** ** Further runs on sample inputs *)

Example run_tricky :
  queries (trace (ServeHTTP (answering 200) tricky_gate tt tricky_request))
  = [(the_client, tricky_query)] ∧
  Body tricky_query
  = "audience=a%26b%3Dc&grant_type=urn%3Aietf%3Aparams%3Aoauth%3Agrant-type%3Auma-ticket&permission=%2For%26ders%23re%3Dad".
Proof. vm_compute. done. Qed.

(** A resource that holds a [#] makes the permission ambiguous. *)
Example permission_ambiguous :
  derived (trace (ServeHTTP (answering 200) demo_gate tt
                    (sample_request "/a/b/c/x#y/z" ["Bearer token"])))
  = derived (trace (ServeHTTP (answering 200) demo_gate tt
                      (sample_request "/a/b/c/x/y#z" ["Bearer token"]))).
Proof. reflexivity. Qed.

Example run_blank_url :
  responses (trace (ServeHTTP refusing (sample_gate "  " "gateway") tt demo_request))
  = [(tt, "connection refused", 401%Z)].
Proof. vm_compute. done. Qed.

Example unescape_malformed : url_QueryUnescape "100%" = None.
Proof. reflexivity. Qed.

(** ** The further properties at sample inputs *)

Lemma forwarded_only_on_200_witness :
  tt = next demo_gate ∧ tt = tt ∧ demo_request = demo_request ∧
  Header_Get (Header demo_request) "Authorization" ≠ "" ∧
  6 ≤ length (strings_Split (Path (URL demo_request)) "/") ∧
  keycloakUrl demo_gate ≠ "" ∧
  ∃ kcReq kcResp,
    queries (trace (ServeHTTP (answering 200) demo_gate tt demo_request))
    = [(the_client, kcReq)] ∧
    roundTrip (answering 200) the_client kcReq = Ok kcResp ∧
    StatusCode kcResp = 200%Z.
Proof.
  apply (forwarded_only_on_200 (answering 200) demo_gate tt demo_request tt tt demo_request).
  vm_compute. apply list_elem_of_here.
Defined.

Lemma query_sent_checks_passed_witness :
  Header_Get (Header demo_request) "Authorization" ≠ "" ∧
  6 ≤ length (strings_Split (Path (URL demo_request)) "/") ∧
  keycloakUrl demo_gate ≠ "" ∧
  ∃ u, resolve refusing (keycloakUrl demo_gate) = Ok u.
Proof.
  apply (query_sent_checks_passed refusing demo_gate tt demo_request the_client demo_query).
  vm_compute. apply list_elem_of_here.
Defined.


Lemma credential_printed_witness :
  VStr (Header_Get (Header (sample_request "/" ["Bearer secret"])) "Authorization")
  ∈ printed (trace (ServeHTTP malformed demo_gate tt (sample_request "/" ["Bearer secret"]))).
Proof.
  apply (credential_printed malformed demo_gate tt (sample_request "/" ["Bearer secret"])).
  vm_compute. discriminate.
Defined.

Lemma response_printed_witness :
  VStr (Status (answer 403))
  ∈ printed (trace (ServeHTTP (answering 403) demo_gate tt demo_request)) ∧
  VStr (RespBody (answer 403))
  ∈ printed (trace (ServeHTTP (answering 403) demo_gate tt demo_request)).
Proof.
  apply (response_printed (answering 403) demo_gate tt demo_request the_client demo_query).
  - vm_compute. apply list_elem_of_here.
  - reflexivity.
Defined.

Lemma decision_ignores_rest_of_request_witness :
  responses (trace (ServeHTTP (answering 200) demo_gate tt other_request))
  = responses (trace (ServeHTTP (answering 200) demo_gate tt demo_request)) ∧
  queries (trace (ServeHTTP (answering 200) demo_gate tt other_request))
  = queries (trace (ServeHTTP (answering 200) demo_gate tt demo_request)) ∧
  forwarded (trace (ServeHTTP (answering 200) demo_gate tt other_request))
  = (λ call, (call.1.1, call.1.2, other_request))
      <$> forwarded (trace (ServeHTTP (answering 200) demo_gate tt demo_request)).
Proof.
  apply (decision_ignores_rest_of_request (answering 200) demo_gate tt demo_request
           other_request).
  - reflexivity.
  - reflexivity.
Defined.

Lemma bad_request_iff_few_slashes_witness :
  (∃ error, (tt, error, 400%Z)
            ∈ responses (trace (ServeHTTP (answering 200) demo_gate tt
                                  (sample_request "/a/b/c/orders" ["Bearer token"]))))
  ↔ strings_Count (Path (URL (sample_request "/a/b/c/orders" ["Bearer token"]))) "/" < 5.
Proof.
  apply (bad_request_iff_few_slashes (answering 200) demo_gate tt
           (sample_request "/a/b/c/orders" ["Bearer token"])).
  vm_compute. discriminate.
Defined.

Lemma permission_has_one_slash_witness : strings_Count "/orders#read" "/" = 1.
Proof.
  apply (permission_has_one_slash (answering 200) demo_gate tt demo_request "/orders#read").
  vm_compute. apply list_elem_of_here.
Defined.

Lemma permission_determines_segments_witness : "orders" = "orders" ∧ "read" = "read".
Proof.
  apply (permission_determines_segments
           (answering 200) demo_gate tt demo_request
           refusing tricky_gate tt (sample_request "/x/y/z/orders/read" ["Basic dXNlcg=="])
           "orders" "read" "orders" "read").
  - vm_compute. discriminate.
  - vm_compute. discriminate.
  - reflexivity.
  - reflexivity.
  - reflexivity.
  - reflexivity.
  - reflexivity.
  - reflexivity.
  - reflexivity.
Defined.

Lemma query_body_decodes_witness :
  ∃ audience permission,
    Body tricky_query
    = "audience=" +:+ audience
      +:+ "&grant_type=urn%3Aietf%3Aparams%3Aoauth%3Agrant-type%3Auma-ticket&permission="
      +:+ permission ∧
    url_QueryUnescape audience = Some (keycloakClientId tricky_gate) ∧
    url_QueryUnescape "urn%3Aietf%3Aparams%3Aoauth%3Agrant-type%3Auma-ticket"
    = Some "urn:ietf:params:oauth:grant-type:uma-ticket" ∧
    (Some <$> derived (trace (ServeHTTP (answering 200) tricky_gate tt tricky_request)))
    = [url_QueryUnescape permission].
Proof.
  apply (query_body_decodes (answering 200) tricky_gate tt tricky_request the_client
           tricky_query).
  vm_compute. apply list_elem_of_here.
Defined.

Lemma query_body_three_fields_witness :
  strings_Count (Body tricky_query) "&" = 2 ∧ strings_Count (Body tricky_query) "=" = 3.
Proof.
  apply (query_body_three_fields (answering 200) tricky_gate tt tricky_request the_client
           tricky_query).
  vm_compute. apply list_elem_of_here.
Defined.

Lemma query_body_injective_witness :
  keycloakClientId demo_gate = keycloakClientId demo_gate ∧
  derived (trace (ServeHTTP (answering 200) demo_gate tt demo_request))
  = derived (trace (ServeHTTP refusing demo_gate tt other_request)).
Proof.
  apply (query_body_injective (answering 200) demo_gate tt demo_request the_client demo_query
           refusing demo_gate tt other_request the_client demo_query).
  - vm_compute. apply list_elem_of_here.
  - vm_compute. apply list_elem_of_here.
  - reflexivity.
Defined.

Lemma New_then_ServeHTTP_witness :
  (∀ h w' r,
     (h, w', r) ∈ forwarded (trace (ServeHTTP (answering 200) demo_gate tt demo_request)) →
     h = tt) ∧
  (∀ client kcReq,
     (client, kcReq) ∈ queries (trace (ServeHTTP (answering 200) demo_gate tt demo_request)) →
     resolve (answering 200)
       "https://keycloak.local/realms/demo/protocol/openid-connect/token" = Ok (URL kcReq) ∧
     ∃ permission, Body kcReq = Values_Encode (contract_fields permission "gateway")).
Proof.
  apply (New_then_ServeHTTP (ResponseWriter := unit) tt tt
           {| KeycloakURL := "https://keycloak.local/realms/demo/protocol/openid-connect/token";
              KeycloakClientId := "gateway" |}
           "authz" demo_gate (answering 200) tt demo_request).
  reflexivity.
Defined.

Lemma blank_url_warned_not_guarded_witness :
  Println [VStr "⚠️  [CONFIG] KeycloakURL is empty! Make sure you define it in the dynamic middleware config."]
    ∈ trace (New (ResponseWriter := unit) tt tt (Some blank_config) "authz") ∧
  (∀ error, (tt, error, 500%Z)
            ∉ responses (trace (ServeHTTP (answering 200) (sample_gate "  " "gateway") tt
                                  demo_request))).
Proof.
  destruct (blank_url_warned_not_guarded (ResponseWriter := unit) tt tt blank_config "authz"
              (sample_gate "  " "gateway")) as (Hwarned & Hnever & _).
  - reflexivity.
  - vm_compute. discriminate.
  - reflexivity.
  - split; [exact Hwarned|]. intros error. apply Hnever.
Defined.
